(** * ccu-jack: the lifecycle orchestrator of [main.go]

    A shallow embedding of package [main] of github.com/mdzio/ccu-jack:
    [configure], [message], [certificates], [newRoot], [startupBase],
    [shutdownBase], [startupApp], [shutdownApp], [run] and [main].

    The program is a sequence of calls on collaborators (configuration store,
    certificate generator, HTTP server, MQTT broker, CCU interconnector, ...)
    around a handful of package-level pointer variables.  It is embedded as a
    state monad over a [World]: the heap of allocated objects, the
    package-level variables, the file system, and the history of the calls
    made so far.  What the outside decides (the result of reading the
    configuration, the clock, the certificate generator, which channel wakes
    the final [select]) is collected in an [Env].

    Collaborator calls are assumed to return normally: the program never
    recovers from a panic, and panics are outside this model. *)

From Stdlib Require Import ZArith Lia.
From stdpp Require Import base option list strings gmap pretty.

(** ** Go runtime values used by the program *)

Module golang.

(** The [errno] values a path lookup can fail with. *)
Inductive Errno := EPERM | ENOENT | EIO | EACCES | ENOTDIR | ELOOP.

(** Non-nil values of the interface type [error].  A Go [error] that may
    be nil is an [option error]; [None] is nil. *)
Inductive error :=
| PathError (op path : string) (errno : Errno)   (* *os.PathError *)
| errorString (s : string)                       (* errors.New(s) *)
| wrapError (msg : string) (err : error).        (* fmt.Errorf(msg%w, err) *)

#[global] Instance Errno_eq_dec : EqDecision Errno.
Proof. solve_decision. Defined.

#[global] Instance error_eq_dec : EqDecision error.
Proof. solve_decision. Defined.

(** [os.IsNotExist]: true exactly on the errors of package [os] whose
    underlying errno is ENOENT; false on nil and on wrapped errors. *)
Definition IsNotExist (err : option error) : bool :=
  match err with
  | Some (PathError _ _ ENOENT) => true
  | _ => false
  end.

(** [time.Duration] is an int64 count of nanoseconds. *)
Definition Duration := Z.
Definition int64_min : Z := - 2 ^ 63.
Definition int64_max : Z := 2 ^ 63 - 1.
Definition in_int64 (d : Z) : Prop := (int64_min <= d <= int64_max)%Z.

Definition Nanosecond : Duration := 1%Z.
Definition Microsecond : Duration := (1000 * Nanosecond)%Z.
Definition Millisecond : Duration := (1000 * Microsecond)%Z.
Definition Second : Duration := (1000 * Millisecond)%Z.
Definition Minute : Duration := (60 * Second)%Z.
Definition Hour : Duration := (60 * Minute)%Z.

(** [time.Time] as an instant: nanoseconds since the epoch. *)
Definition Time := Z.
Definition Add (t : Time) (d : Duration) : Time := (t + d)%Z.

(** [strconv.Itoa]. *)
Definition Itoa (i : Z) : string := pretty i.

(** [strings.Join]. *)
Fixpoint Join (elems : list string) (sep : string) : string :=
  match elems with
  | [] => ""
  | [e] => e
  | e :: rest => e +:+ sep +:+ Join rest sep
  end.

(** Flags of [os.OpenFile] (linux). *)
Definition O_WRONLY : Z := 1.
Definition O_CREATE : Z := 64.
Definition O_APPEND : Z := 1024.

(** Signals. *)
Inductive Signal := SIGINT | SIGTERM.

(** [net/http] method names. *)
Definition MethodGet : string := "GET".
Definition MethodPut : string := "PUT".

End golang.
Import golang.

(** ** The file system

  A path is absent, holds a regular file, or cannot be looked up
  (permission denied on a directory of the path, I/O error, ...). *)

Inductive Node :=
| File (data : string)
| Denied (errno : Errno).

Abbreviation FS := (gmap string Node).

(** [os.Stat], keeping only the error (the program discards the FileInfo). *)
Definition Stat (fs : FS) (name : string) : option error :=
  match fs !! name with
  | None => Some (PathError "stat" name ENOENT)
  | Some (File _) => None
  | Some (Denied e) => Some (PathError "stat" name e)
  end.

(** [os.OpenFile] with O_APPEND|O_CREATE|O_WRONLY: an absent file is
  created empty, an existing one is opened as it is. *)
Definition OpenFile (fs : FS) (name : string) : option error * FS :=
  match fs !! name with
  | None => (None, <[name := File ""]> fs)
  | Some (File _) => (None, fs)
  | Some (Denied e) => (Some (PathError "open" name e), fs)
  end.

(** ** Collaborator packages: the data the program hands to them *)

(** github.com/mdzio/go-logging *)
Module logging.
Inductive LogLevel :=
  OffLevel | ErrorLevel | WarningLevel | InfoLevel | DebugLevel | TraceLevel.
End logging.

(** Modelled from the spec: package rtcfg (the Configuration Store) is not
  under src/.  The configuration snapshot holds host name and address,
  REST plain and TLS ports, the CORS origin list, pub/sub plain and TLS
  ports, the binary-callback port, the controller address, the enabled
  controller interfaces, the callback-registration identifier prefix and
  the logging settings; the field names are the ones main.go reads. *)
Module rtcfg.
Module Logging.
Record t := { Level : logging.LogLevel; FilePath : string }.
End Logging.
Module Host.
Record t := { Name : string; Address : string }.
End Host.
Module HTTP.
Record t := { Port : Z; PortTLS : Z; CORSOrigins : list string }.
End HTTP.
Module MQTT.
Record t := { Port : Z; PortTLS : Z }.
End MQTT.
Module BINRPC.
Record t := { Port : Z }.
End BINRPC.
Module CCU.
Record t := { Address : string; Interfaces : list string; InitID : string }.
End CCU.
Record Config := {
  Logging : Logging.t;
  Host : Host.t;
  HTTP : HTTP.t;
  MQTT : MQTT.t;
  BINRPC : BINRPC.t;
  CCU : CCU.t
}.
(** The zero value of [Config]. *)
Definition zero : Config := {|
  Logging := {| Logging.Level := logging.OffLevel; Logging.FilePath := "" |};
  Host := {| Host.Name := ""; Host.Address := "" |};
  HTTP := {| HTTP.Port := 0; HTTP.PortTLS := 0; HTTP.CORSOrigins := [] |};
  MQTT := {| MQTT.Port := 0; MQTT.PortTLS := 0 |};
  BINRPC := {| BINRPC.Port := 0 |};
  CCU := {| CCU.Address := ""; CCU.Interfaces := []; CCU.InitID := "" |}
|}.
End rtcfg.

(** Addresses of heap objects; a Go pointer is an [option addr], nil is
  [None]. *)
Definition addr := nat.

(** github.com/mdzio/go-lib/httputil *)
Module httputil.
Record CertGenerator := {
  Hosts : list string;
  Organization : string;
  NotBefore : Time;
  NotAfter : Time;
  CACertFile : string;
  CAKeyFile : string;
  ServerCertFile : string;
  ServerKeyFile : string
}.
Record Server := {
  Addr : string;
  AddrTLS : string;
  CertFile : string;
  KeyFile : string;
  ServeErr : option addr
}.
End httputil.

(** github.com/gorilla/handlers: the options main.go passes to [CORS]. *)
Module handlers.
Inductive CORSOption :=
| AllowedMethods (methods : list string)
| AllowedOrigins (origins : list string)
| AllowCredentials.
End handlers.

(** Values of the interface type [http.Handler] built by the program. *)
Inductive Handler :=
| FileServer (root : string)                       (* http.FileServer(http.Dir(root)) *)
| StripPrefix (prefix : string) (h : Handler)      (* http.StripPrefix(prefix, h) *)
| HandlerAt (a : addr)                             (* a pointer to a handler object *)
| CORS (opts : list handlers.CORSOption) (h : Handler). (* handlers.CORS(opts...)(h) *)

(** [&store]: the address of the one package-level configuration store. *)
Inductive StoreRef := AddrOfStore.

(** github.com/mdzio/go-veap *)
Module veap.
Record Handler := { URLPrefix : string; Service : option addr }.
End veap.

(** github.com/mdzio/go-veap/model *)
Module model.
Record Root := {
  Identifier : string;
  Title : string;
  Description : string;
  ItemRole : string
}.
Record VendorCfg := {
  ServerName : string;
  ServerVersion : string;
  ServerDescription : string;
  VendorName : string;
  Collection : option addr
}.
Record Service := { Root_ : option addr }.
End model.

(** [HTTPAuthHandler] of package main (declared in another file). *)
Record HTTPAuthHandler := {
  AuthHandler_Handler : Handler;
  AuthHandler_Store : StoreRef;
  AuthHandler_Realm : string
}.

(** github.com/mdzio/go-hmccu/script *)
Module script.
Record Client := { Addr : string }.
(** What [NewReGaDOM] was given. *)
Record ReGaDOM := { client : option addr }.
End script.

(** github.com/mdzio/ccu-jack/vmodel: the exported fields main.go assigns,
  and the collection each constructor was given. *)
Module vmodel.
Module DeviceCol.
Record t := {
  col : option addr;
  Interconnector : option addr;
  ReGaDOM : option addr;
  ModelService : option addr
}.
End DeviceCol.
Module SysVarCol.
Record t := { col : option addr; ScriptClient : option addr }.
End SysVarCol.
Module ProgramCol.
Record t := { col : option addr; ScriptClient : option addr }.
End ProgramCol.
End vmodel.

(** github.com/mdzio/ccu-jack/mqtt *)
Module mqtt.
Record AuthHandler := { Store : StoreRef }.
Record Broker := {
  Addr : string;
  AddrTLS : string;
  CertFile : string;
  KeyFile : string;
  Authenticator : string;
  ServeErr : option addr;
  Service : option addr
}.
Module EventReceiver.
Record t := { Broker : option addr; Next : option addr }.
End EventReceiver.
End mqtt.

(** github.com/mdzio/go-mqtt/service *)
Module service.
Record WebsocketHandler := { Addr : string }.
End service.

(** github.com/mdzio/go-hmccu/itf *)
Module itf.
Record Interconnector := {
  CCUAddr : string;
  Types : list string;
  IDPrefix : string;
  Receiver : option addr;
  ServerURL : string;
  BinRPCURL : string
}.
End itf.

(** ** The heap *)

Inductive Obj :=
| OChan (capacity : nat)
| OServer (s : httputil.Server)
| OVeapHandler (h : veap.Handler)
| ORoot (r : model.Root)
| OVendor (c : model.VendorCfg)
| OService (s : model.Service)
| OHTTPAuthHandler (h : HTTPAuthHandler)
| OScriptClient (c : script.Client)
| OReGaDOM (d : script.ReGaDOM)
| ODeviceCol (d : vmodel.DeviceCol.t)
| OSysVarCol (c : vmodel.SysVarCol.t)
| OProgramCol (c : vmodel.ProgramCol.t)
| OAuthHandler (h : mqtt.AuthHandler)
| OBroker (b : mqtt.Broker)
| OEventReceiver (r : mqtt.EventReceiver.t)
| OWebsocketHandler (h : service.WebsocketHandler)
| OInterconnector (i : itf.Interconnector).

Abbreviation Heap := (list Obj).

(** ** Package-level pointer variables of main.go *)

Inductive Var :=
| httpServer | modelRoot | modelService
| sysVarCol | prgCol | mqttServer | reGaDOM | deviceCol | intercon.

#[global] Instance Var_eq_dec : EqDecision Var.
Proof. solve_decision. Defined.

(** ** Calls on collaborators

  Every call the program makes on the runtime or on a collaborator, with
  the arguments it passes and, where the program looks at it, the result.
  A call that starts a subsystem also carries the heap as it is when the
  call is made: the objects the subsystem starts with. *)

(** Arguments of the variadic logging functions. *)
Inductive Arg :=
| str (s : string)
| int (i : Z)
| err (e : error).

Inductive Call :=
| logging_SetLevel (l : logging.LogLevel)
| logging_SetWriter (f : string)
| log_Info (args : list Arg)
| log_Infof (format : string) (args : list Arg)
| log_Debugf (format : string) (args : list Arg)
| log_Trace (args : list Arg)
| log_Error (args : list Arg)
| store_Read (res : option error)
| store_RLock
| store_RUnlock
| store_Write
| store_Close
| os_Stat (name : string) (res : option error)
| os_OpenFile (name : string) (flag perm : Z) (res : option error)
| File_Close (name : string)
| os_Exit (code : Z)
| time_Now (t : Time)
| time_Sleep (d : Duration)
| CertGenerator_Generate (g : httputil.CertGenerator) (res : option error)
| http_Handle (pattern : string) (h : Handler)
| model_NewVendor (cfg : model.VendorCfg)
| vmodel_NewConfig (vendor : option addr) (s : StoreRef)
| model_NewHandlerStats (vendor : option addr) (statsOf : option addr)
| vmodel_NewDeviceCol (col : option addr)
| vmodel_NewSysVarCol (col : option addr)
| vmodel_NewProgramCol (col : option addr)
| vmodel_NewRoomCol (col dom svc : option addr)
| vmodel_NewFunctionCol (col dom svc : option addr)
| script_NewReGaDOM (client : option addr)
| auth_Register (name : string) (h : option addr)
| signal_Notify (c : option addr) (sigs : list Signal)
| Server_Startup (recv : option addr) (seen : list Obj)
| Server_Shutdown (recv : option addr)
| Start (v : Var) (recv : option addr) (seen : list Obj)
| Stop (v : Var) (recv : option addr)
| recv_serveErr (c : option addr) (v : option error)
| recv_termSig (c : option addr).

(** ** The world and the environment *)

Record World := {
  history : list Call;                (* oldest first *)
  heap : Heap;
  vars : Var -> option addr;          (* nil until assigned *)
  logFile : option string;            (* the variable logFile *)
  fs : FS;
  store_Config : rtcfg.Config         (* store.Config *)
}.

(** The cases of the final [select] of [run]. *)
Inductive Case := case_serveErr | case_termSig.

(** What is ready when the final [select] of [run] stops blocking: a value
  on the channel serveErr, a signal on termSig, or both, in which case the
  runtime chooses one case. *)
Inductive Wakeup :=
| ServeErrReady (v : option error)
| TermSigReady
| BothReady (v : option error) (chosen : Case).

Record Env := {
  (* the result of store.Read(): an error, or the configuration loaded *)
  env_Read : error + rtcfg.Config;
  (* the persisted form of a configuration *)
  env_encode : rtcfg.Config -> string;
  (* time.Now() *)
  env_Now : Time;
  (* the method Generate of httputil.CertGenerator, on the file system *)
  env_Generate : httputil.CertGenerator -> FS -> option error * FS;
  (* logging.LogLevel.String and itf.Types.String *)
  env_LevelString : logging.LogLevel -> string;
  env_TypesString : list string -> string;
  (* what ends the wait *)
  env_wakeup : Wakeup
}.

(** The state before [main] runs: nothing allocated, every pointer nil,
  [store.Config] at its zero value. *)
Definition boot (files : FS) : World := {|
  history := [];
  heap := [];
  vars := fun _ => None;
  logFile := None;
  fs := files;
  store_Config := rtcfg.zero
|}.

(** ** The monad *)

Definition M (A : Type) : Type := World -> A * World.

Definition ret {A} (a : A) : M A := fun w => (a, w).

Definition bind {A B} (m : M A) (k : A -> M B) : M B :=
  fun w => let (a, w') := m w in k a w'.

Declare Scope go_scope.
Notation "x <~ m ; k" := (bind m (fun x => k))
  (at level 100, m at level 99, k at level 200, right associativity,
   format "x  <~  m ; '//' k") : go_scope.
Notation "'do' m ; k" := (bind m (fun _ => k))
  (at level 100, m at level 99, k at level 200, right associativity,
   format "'do'  m ; '//' k") : go_scope.
Open Scope go_scope.

(** [defer d] in a function whose remaining body is [body]: [d] runs after
  [body] has produced the function's result. *)
Definition defer {A} (d : M unit) (body : M A) : M A :=
  r <~ body; do d; ret r.

(** The result and the final world of a computation. *)
Definition result {A} (m : M A) (w : World) : A := fst (m w).
Definition after {A} (m : M A) (w : World) : World := snd (m w).

(** The calls made so far. *)
Definition calls (w : World) : list Call := history w.

(** Primitive steps. *)
Definition do_call (c : Call) : M unit := fun w =>
  (tt, {| history := history w ++ [c];
          heap := heap w; vars := vars w; logFile := logFile w;
          fs := fs w; store_Config := store_Config w |}).

(** [new(T)], [&T{...}], [make(chan T, n)] and the constructors of the
  collaborators: a fresh object at the next address. *)
Definition new (o : Obj) : M addr := fun w =>
  (length (heap w),
   {| history := history w; heap := heap w ++ [o]; vars := vars w;
      logFile := logFile w; fs := fs w; store_Config := store_Config w |}).

Definition load (v : Var) : M (option addr) := fun w => (vars w v, w).

Definition assign (v : Var) (p : option addr) : M unit := fun w =>
  (tt, {| history := history w; heap := heap w;
          vars := fun v' => if decide (v' = v) then p else vars w v';
          logFile := logFile w; fs := fs w; store_Config := store_Config w |}).

(** [p.f = x]: an assignment through a pointer.  Through nil it would
  panic; the program only does it through pointers it has just set. *)
Definition modify (p : option addr) (f : Obj -> Obj) : M unit := fun w =>
  (tt, {| history := history w;
          heap := match p with Some a => alter f a (heap w) | None => heap w end;
          vars := vars w; logFile := logFile w; fs := fs w;
          store_Config := store_Config w |}).

Definition set_logFile (f : option string) : M unit := fun w =>
  (tt, {| history := history w; heap := heap w; vars := vars w;
          logFile := f; fs := fs w; store_Config := store_Config w |}).

Definition get_logFile : M (option string) := fun w => (logFile w, w).

Definition get_fs : M FS := fun w => (fs w, w).

Definition set_fs (files : FS) : M unit := fun w =>
  (tt, {| history := history w; heap := heap w; vars := vars w;
          logFile := logFile w; fs := files; store_Config := store_Config w |}).

Definition get_Config : M rtcfg.Config := fun w => (store_Config w, w).

Definition get_heap : M Heap := fun w => (heap w, w).

Definition set_Config (c : rtcfg.Config) : M unit := fun w =>
  (tt, {| history := history w; heap := heap w; vars := vars w;
          logFile := logFile w; fs := fs w; store_Config := c |}).

(** ** Package main *)

Definition appDisplayName : string := "CCU-Jack".
Definition appName : string := "ccu-jack".
Definition appDescription : string := "REST/MQTT-Server for the HomeMatic CCU".
Definition appCopyright : string := "(C)2020-2021".
Definition appVendor : string := "info@ccu-historian.de".

Definition webUIDir : string := "webui".
Definition configFile : string := "ccu-jack.cfg".
Definition caCertFile : string := "cacert.pem".
Definition caKeyFile : string := "cacert.key".
Definition serverCertFile : string := "svrcert.pem".
Definition serverKeyFile : string := "svrcert.key".

Definition mqttWsPath : string := "/ws-mqtt".

(** The value in the source; the build overwrites it. *)
Definition appVersion : string := "-dev-".

(** The four files of the certificate chain. *)
Definition certFiles : list string :=
  [caCertFile; caKeyFile; serverCertFile; serverKeyFile].

Section Program.

Variable env : Env.

(** *** The configuration store [store] *)

(** [store.Read()]: on success [store.Config] holds what was read. *)
Definition Store_Read : M (option error) :=
  match env_Read env with
  | inl e => do do_call (store_Read (Some e)); ret (Some e)
  | inr cfg => do do_call (store_Read None); do set_Config cfg; ret None
  end.

(** Modelled from the spec: [Write] of rtcfg.Store (package rtcfg is not
  under src/) is the store's persistence: it writes the configuration
  snapshot to the durable configuration file. *)
Definition Store_Write : M unit :=
  do do_call store_Write;
  cfg <~ get_Config;
  files <~ get_fs;
  set_fs (<[configFile := File (env_encode env cfg)]> files).

(** *** Runtime calls with a result *)

Definition os_Stat_ (name : string) : M (option error) :=
  files <~ get_fs;
  let res := Stat files name in
  do do_call (os_Stat name res);
  ret res.

(** [logFile, err = os.OpenFile(name, flag, perm)]. *)
Definition os_OpenFile_ (name : string) (flag perm : Z) : M (option error) :=
  files <~ get_fs;
  let (res, files') := OpenFile files name in
  do do_call (os_OpenFile name flag perm res);
  do set_fs files';
  do set_logFile (match res with None => Some name | Some _ => None end);
  ret res.

Definition time_Now_ : M Time :=
  do do_call (time_Now (env_Now env));
  ret (env_Now env).

Definition Generate_ (g : httputil.CertGenerator) : M (option error) :=
  files <~ get_fs;
  let (res, files') := env_Generate env g files in
  do do_call (CertGenerator_Generate g res);
  do set_fs files';
  ret res.

(** *** configure *)

Definition configure : M (option error) :=
  (* initial log level *)
  do do_call (logging_SetLevel logging.ErrorLevel);
  (* read config file *)
  e <~ Store_Read;
  match e with
  | Some e => ret (Some e)
  | None =>
    (* lock config for reading *)
    do do_call store_RLock;
    defer (do_call store_RUnlock) (
      cfg <~ get_Config;
      let logCfg := rtcfg.Logging cfg in
      (* configure logging *)
      do do_call (logging_SetLevel (rtcfg.Logging.Level logCfg));
      if decide (rtcfg.Logging.FilePath logCfg <> "") then
        e <~ os_OpenFile_ (rtcfg.Logging.FilePath logCfg)
               (Z.lor (Z.lor O_APPEND O_CREATE) O_WRONLY)
               (6 * 64 + 4 * 8 + 4) (* 0644 *);
        match e with
        | Some e => ret (Some (wrapError "Opening log file failed: " e))
        | None =>
          (* switch to file log *)
          do do_call (logging_SetWriter (rtcfg.Logging.FilePath logCfg));
          ret None
        end
      else ret None)
  end.

(** *** message *)

Definition message : M unit :=
  (* log startup message *)
  do do_call (log_Info [str appDisplayName; str " V"; str appVersion]);
  do do_call (log_Info [str appCopyright; str " "; str appVendor]);
  (* lock config for reading *)
  do do_call store_RLock;
  defer (do_call store_RUnlock) (
    cfg <~ get_Config;
    (* log configuration *)
    do do_call (log_Info [str "Configuration:"]);
    do do_call (log_Info [str "  Log level: ";
         str (env_LevelString env (rtcfg.Logging.Level (rtcfg.Logging cfg)))]);
    do do_call (log_Info [str "  Log file: ";
         str (rtcfg.Logging.FilePath (rtcfg.Logging cfg))]);
    do do_call (log_Info [str "  Server host name: ";
         str (rtcfg.Host.Name (rtcfg.Host cfg))]);
    do do_call (log_Info [str "  Server address: ";
         str (rtcfg.Host.Address (rtcfg.Host cfg))]);
    do do_call (log_Info [str "  HTTP port: "; int (rtcfg.HTTP.Port (rtcfg.HTTP cfg))]);
    do do_call (log_Info [str "  HTTPS port: ";
         int (rtcfg.HTTP.PortTLS (rtcfg.HTTP cfg))]);
    do do_call (log_Info [str "  CORS origins: ";
         str (Join (rtcfg.HTTP.CORSOrigins (rtcfg.HTTP cfg)) ",")]);
    do do_call (log_Info [str "  MQTT port: "; int (rtcfg.MQTT.Port (rtcfg.MQTT cfg))]);
    do do_call (log_Info [str "  BINRPC Port: ";
         int (rtcfg.BINRPC.Port (rtcfg.BINRPC cfg))]);
    do do_call (log_Info [str "  Secure MQTT port: ";
         int (rtcfg.MQTT.PortTLS (rtcfg.MQTT cfg))]);
    do do_call (log_Info [str "  CCU address: ";
         str (rtcfg.CCU.Address (rtcfg.CCU cfg))]);
    do do_call (log_Info [str "  Interfaces: ";
         str (env_TypesString env (rtcfg.CCU.Interfaces (rtcfg.CCU cfg)))]);
    do_call (log_Info [str "  Init ID: "; str (rtcfg.CCU.InitID (rtcfg.CCU cfg))])).

(** *** certificates *)

(** The generator [certificates] sets up at time [now]. *)
Definition certGenerator (cfg : rtcfg.Config) (now : Time)
    : httputil.CertGenerator := {|
  httputil.Hosts := [rtcfg.Host.Name (rtcfg.Host cfg)];
  httputil.Organization := appDisplayName;
  httputil.NotBefore := now;
  httputil.NotAfter := Add now (10 * 365 * 24 * Hour)%Z;
  httputil.CACertFile := caCertFile;
  httputil.CAKeyFile := caKeyFile;
  httputil.ServerCertFile := serverCertFile;
  httputil.ServerKeyFile := serverKeyFile
|}.

Definition certificates : M (option error) :=
  (* certificate already present? *)
  errCert <~ os_Stat_ serverCertFile;
  errKey <~ os_Stat_ serverKeyFile;
  if negb (IsNotExist errCert) && negb (IsNotExist errKey) then ret None
  else
    (* lock config for reading *)
    do do_call store_RLock;
    defer (do_call store_RUnlock) (
      cfg <~ get_Config;
      (* generate certificates *)
      do do_call (log_Info [str "Generating certificates"]);
      now <~ time_Now_;
      let gen := certGenerator cfg now in
      e <~ Generate_ gen;
      match e with
      | Some e => ret (Some e)
      | None =>
        do do_call (log_Debugf "Created certificate files: %s, %s, %s, %s"
             [str caCertFile; str caKeyFile; str serverCertFile; str serverKeyFile]);
        ret None
      end).

(** *** newRoot *)

Definition on_Root (f : model.Root -> model.Root) (o : Obj) : Obj :=
  match o with ORoot r => ORoot (f r) | _ => o end.

Definition newRoot (handlerStats : option addr) : M (option addr) :=
  (* root domain *)
  r <~ new (ORoot {| model.Identifier := ""; model.Title := "";
                     model.Description := ""; model.ItemRole := "" |});
  do modify (Some r) (on_Root (fun x => {| model.Identifier := "root";
       model.Title := model.Title x; model.Description := model.Description x;
       model.ItemRole := model.ItemRole x |}));
  do modify (Some r) (on_Root (fun x => {| model.Identifier := model.Identifier x;
       model.Title := "Root"; model.Description := model.Description x;
       model.ItemRole := model.ItemRole x |}));
  do modify (Some r) (on_Root (fun x => {| model.Identifier := model.Identifier x;
       model.Title := model.Title x;
       model.Description := "Root of the CCU-Jack VEAP server";
       model.ItemRole := model.ItemRole x |}));
  do modify (Some r) (on_Root (fun x => {| model.Identifier := model.Identifier x;
       model.Title := model.Title x; model.Description := model.Description x;
       model.ItemRole := "domain" |}));
  (* vendor domain *)
  let vendorCfg := {|
    model.ServerName := appDisplayName;
    model.ServerVersion := appVersion;
    model.ServerDescription := appDescription;
    model.VendorName := appVendor;
    model.Collection := Some r |} in
  do do_call (model_NewVendor vendorCfg);
  vendor <~ new (OVendor vendorCfg);
  do do_call (vmodel_NewConfig (Some vendor) AddrOfStore);
  do do_call (model_NewHandlerStats (Some vendor) handlerStats);
  ret (Some r).

(** *** startupBase *)

(** The CORS wrapper of the VEAP handler. *)
Definition corsHandler (cfg : rtcfg.Config) (handler : Handler) : Handler :=
  let allowedMethods := handlers.AllowedMethods [MethodGet; MethodPut] in
  if decide (length (rtcfg.HTTP.CORSOrigins (rtcfg.HTTP cfg)) = 0) then
    CORS [allowedMethods] handler
  else
    let allowedOrigins :=
      handlers.AllowedOrigins (rtcfg.HTTP.CORSOrigins (rtcfg.HTTP cfg)) in
    (* only if origin is specified, credentials are allowed (CORS spec) *)
    let allowCredentials := handlers.AllowCredentials in
    CORS [allowedMethods; allowedOrigins; allowCredentials] handler.

Definition on_VeapHandler (f : veap.Handler -> veap.Handler) (o : Obj) : Obj :=
  match o with OVeapHandler h => OVeapHandler (f h) | _ => o end.

(** [p.URLPrefix] for a pointer to a veap.Handler. *)
Definition URLPrefix_of (p : addr) : M string := fun w =>
  (match heap w !! p with
   | Some (OVeapHandler h) => veap.URLPrefix h
   | _ => ""
   end, w).

Definition startupBase (serveErr : option addr) : M unit :=
  (* lock config for reading *)
  do do_call store_RLock;
  defer (do_call store_RUnlock) (
    cfg <~ get_Config;
    (* file handler for static files *)
    do do_call (http_Handle "/ui/" (StripPrefix "/ui" (FileServer webUIDir)));
    (* setup and start http(s) server *)
    p <~ new (OServer {|
      httputil.Addr := ":" +:+ Itoa (rtcfg.HTTP.Port (rtcfg.HTTP cfg));
      httputil.AddrTLS := ":" +:+ Itoa (rtcfg.HTTP.PortTLS (rtcfg.HTTP cfg));
      httputil.CertFile := serverCertFile;
      httputil.KeyFile := serverKeyFile;
      httputil.ServeErr := serveErr |});
    do assign httpServer (Some p);
    p <~ load httpServer;
    seen <~ get_heap;
    do do_call (Server_Startup p seen);
    (* veap handler and model *)
    veapHandler <~ new (OVeapHandler {| veap.URLPrefix := ""; veap.Service := None |});
    r <~ newRoot (Some veapHandler);
    do assign modelRoot r;
    r <~ load modelRoot;
    s <~ new (OService {| model.Root_ := r |});
    do assign modelService (Some s);
    s <~ load modelService;
    do modify (Some veapHandler) (on_VeapHandler (fun h =>
         {| veap.URLPrefix := veap.URLPrefix h; veap.Service := s |}));
    (* authentication for VEAP *)
    a <~ new (OHTTPAuthHandler {|
      AuthHandler_Handler := HandlerAt veapHandler;
      AuthHandler_Store := AddrOfStore;
      AuthHandler_Realm := "CCU-Jack VEAP-Server" |});
    let handler := HandlerAt a in
    (* CORS handler for VEAP *)
    let handler := corsHandler cfg handler in
    (* register VEAP handler *)
    prefix <~ URLPrefix_of veapHandler;
    do_call (http_Handle (prefix +:+ "/") handler)).

(** *** shutdownBase *)

Definition shutdownBase : M unit :=
  p <~ load httpServer;
  do_call (Server_Shutdown p).

(** *** startupApp *)

Definition on_SysVarCol (f : vmodel.SysVarCol.t -> vmodel.SysVarCol.t) (o : Obj) : Obj :=
  match o with OSysVarCol c => OSysVarCol (f c) | _ => o end.

Definition on_ProgramCol (f : vmodel.ProgramCol.t -> vmodel.ProgramCol.t) (o : Obj) : Obj :=
  match o with OProgramCol c => OProgramCol (f c) | _ => o end.

Definition on_DeviceCol (f : vmodel.DeviceCol.t -> vmodel.DeviceCol.t) (o : Obj) : Obj :=
  match o with ODeviceCol c => ODeviceCol (f c) | _ => o end.

Definition startupApp (serveErr : option addr) : M unit :=
  (* lock config for reading *)
  do do_call store_RLock;
  defer (do_call store_RUnlock) (
    cfg <~ get_Config;
    (* create device collection *)
    root <~ load modelRoot;
    do do_call (vmodel_NewDeviceCol root);
    p <~ new (ODeviceCol {| vmodel.DeviceCol.col := root;
           vmodel.DeviceCol.Interconnector := None;
           vmodel.DeviceCol.ReGaDOM := None;
           vmodel.DeviceCol.ModelService := None |});
    do assign deviceCol (Some p);
    (* configure HM script client *)
    scriptClient <~ new (OScriptClient
           {| script.Addr := rtcfg.CCU.Address (rtcfg.CCU cfg) |});
    (* create system variable collection *)
    root <~ load modelRoot;
    do do_call (vmodel_NewSysVarCol root);
    p <~ new (OSysVarCol {| vmodel.SysVarCol.col := root;
           vmodel.SysVarCol.ScriptClient := None |});
    do assign sysVarCol (Some p);
    p <~ load sysVarCol;
    do modify p (on_SysVarCol (fun c =>
         {| vmodel.SysVarCol.col := vmodel.SysVarCol.col c;
            vmodel.SysVarCol.ScriptClient := Some scriptClient |}));
    p <~ load sysVarCol;
    seen <~ get_heap;
    do do_call (Start sysVarCol p seen);
    (* create programs collection *)
    root <~ load modelRoot;
    do do_call (vmodel_NewProgramCol root);
    p <~ new (OProgramCol {| vmodel.ProgramCol.col := root;
           vmodel.ProgramCol.ScriptClient := None |});
    do assign prgCol (Some p);
    p <~ load prgCol;
    do modify p (on_ProgramCol (fun c =>
         {| vmodel.ProgramCol.col := vmodel.ProgramCol.col c;
            vmodel.ProgramCol.ScriptClient := Some scriptClient |}));
    p <~ load prgCol;
    seen <~ get_heap;
    do do_call (Start prgCol p seen);
    (* MQTT authentication handler *)
    let mqttAuth := "configAuthHandler" in
    h <~ new (OAuthHandler {| mqtt.Store := AddrOfStore |});
    do do_call (auth_Register mqttAuth (Some h));
    (* setup and start MQTT server *)
    svc <~ load modelService;
    p <~ new (OBroker {|
      mqtt.Addr := "tcp://:" +:+ Itoa (rtcfg.MQTT.Port (rtcfg.MQTT cfg));
      mqtt.AddrTLS := "tcp://:" +:+ Itoa (rtcfg.MQTT.PortTLS (rtcfg.MQTT cfg));
      mqtt.CertFile := serverCertFile;
      mqtt.KeyFile := serverKeyFile;
      mqtt.Authenticator := mqttAuth;
      mqtt.ServeErr := serveErr;
      mqtt.Service := svc |});
    do assign mqttServer (Some p);
    p <~ load mqttServer;
    seen <~ get_heap;
    do do_call (Start mqttServer p seen);
    (* register websocket proxy for MQTT *)
    do do_call (log_Infof ("MQTT websocket path: " +:+ mqttWsPath) []);
    mqttWs <~ new (OWebsocketHandler
           {| service.Addr := ":" +:+ Itoa (rtcfg.MQTT.Port (rtcfg.MQTT cfg)) |});
    do do_call (http_Handle mqttWsPath (HandlerAt mqttWs));
    (* event receiver for MQTT *)
    broker <~ load mqttServer;
    next <~ load deviceCol;
    mqttReceiver <~ new (OEventReceiver {|
      mqtt.EventReceiver.Broker := broker;
      (* forward events *)
      mqtt.EventReceiver.Next := next |});
    (* configure interconnector *)
    p <~ new (OInterconnector {|
      itf.CCUAddr := rtcfg.CCU.Address (rtcfg.CCU cfg);
      itf.Types := rtcfg.CCU.Interfaces (rtcfg.CCU cfg);
      itf.IDPrefix := rtcfg.CCU.InitID (rtcfg.CCU cfg) +:+ "-";
      itf.Receiver := Some mqttReceiver;
      (* full URL of the DefaultServeMux for callbacks *)
      itf.ServerURL := "http://" +:+ rtcfg.Host.Address (rtcfg.Host cfg) +:+ ":"
                         +:+ Itoa (rtcfg.HTTP.Port (rtcfg.HTTP cfg));
      (* full URL of TCP Server for BINRPC callbacks *)
      itf.BinRPCURL := "xmlrpc_bin://" +:+ rtcfg.Host.Address (rtcfg.Host cfg) +:+ ":"
                         +:+ Itoa (rtcfg.BINRPC.Port (rtcfg.BINRPC cfg)) |});
    do assign intercon (Some p);
    (* start ReGa DOM explorer *)
    do do_call (script_NewReGaDOM (Some scriptClient));
    p <~ new (OReGaDOM {| script.client := Some scriptClient |});
    do assign reGaDOM (Some p);
    p <~ load reGaDOM;
    seen <~ get_heap;
    do do_call (Start reGaDOM p seen);
    (* create room and function collections *)
    root <~ load modelRoot;
    dom <~ load reGaDOM;
    svc <~ load modelService;
    do do_call (vmodel_NewRoomCol root dom svc);
    do do_call (vmodel_NewFunctionCol root dom svc);
    (* startup device domain (starts handling of events) *)
    p <~ load deviceCol;
    ic <~ load intercon;
    do modify p (on_DeviceCol (fun c =>
         {| vmodel.DeviceCol.col := vmodel.DeviceCol.col c;
            vmodel.DeviceCol.Interconnector := ic;
            vmodel.DeviceCol.ReGaDOM := vmodel.DeviceCol.ReGaDOM c;
            vmodel.DeviceCol.ModelService := vmodel.DeviceCol.ModelService c |}));
    do modify p (on_DeviceCol (fun c =>
         {| vmodel.DeviceCol.col := vmodel.DeviceCol.col c;
            vmodel.DeviceCol.Interconnector := vmodel.DeviceCol.Interconnector c;
            vmodel.DeviceCol.ReGaDOM := dom;
            vmodel.DeviceCol.ModelService := vmodel.DeviceCol.ModelService c |}));
    do modify p (on_DeviceCol (fun c =>
         {| vmodel.DeviceCol.col := vmodel.DeviceCol.col c;
            vmodel.DeviceCol.Interconnector := vmodel.DeviceCol.Interconnector c;
            vmodel.DeviceCol.ReGaDOM := vmodel.DeviceCol.ReGaDOM c;
            vmodel.DeviceCol.ModelService := svc |}));
    seen <~ get_heap;
    do do_call (Start deviceCol p seen);
    (* startup interconnector *)
    (* (an additional handler for XMLRPC is registered at the DefaultServeMux.) *)
    ic <~ load intercon;
    seen <~ get_heap;
    do_call (Start intercon ic seen)).

(** *** shutdownApp *)

Definition shutdownApp : M unit :=
  p <~ load intercon;
  do do_call (Stop intercon p);
  p <~ load deviceCol;
  do do_call (Stop deviceCol p);
  p <~ load reGaDOM;
  do do_call (Stop reGaDOM p);
  p <~ load mqttServer;
  do do_call (Stop mqttServer p);
  p <~ load prgCol;
  do do_call (Stop prgCol p);
  p <~ load sysVarCol;
  do_call (Stop sysVarCol p).

(** *** run *)

(** The [select] at the end of [run]: it blocks until a case is ready and
  takes one ready case. *)
Definition wait (serveErr termSig : option addr) : M (option error) :=
  match env_wakeup env with
  | ServeErrReady v | BothReady v case_serveErr =>
    do do_call (recv_serveErr serveErr v);
    ret v
  | TermSigReady | BothReady _ case_termSig =>
    do do_call (recv_termSig termSig);
    do do_call (log_Trace [str "Shutdown signal received"]);
    ret None
  end.

Definition run : M (option error) :=
  (* log message for shut down *)
  defer (do_call (log_Info [str "Shutting down"])) (
    (* setup configuration *)
    e <~ configure;
    match e with
    | Some e => ret (Some e)
    | None =>
      (* write configuration on shut down *)
      defer (do Store_Write; do_call store_Close) (
        (* startup message *)
        do message;
        (* other setups *)
        e <~ certificates;
        match e with
        | Some e => ret (Some e)
        | None =>
          (* react on INT or TERM signal *)
          termSig <~ new (OChan 1);
          do do_call (signal_Notify (Some termSig) [SIGINT; SIGTERM]);
          (* react on fatal serve errors *)
          serveErr <~ new (OChan 0);
          (* startup base services *)
          do startupBase (Some serveErr);
          defer shutdownBase (
            (* startup application services *)
            do startupApp (Some serveErr);
            defer shutdownApp (
              (* wait for start up to complete *)
              do do_call (time_Sleep (1 * Second)%Z);
              (* wait for shutdown or error *)
              wait (Some serveErr) (Some termSig)))
        end)
    end).

(** *** main: the result is the exit code *)

Definition main : M Z :=
  e <~ run;
  (* log fatal error *)
  do (match e with
      | Some e => do_call (log_Error [err e])
      | None => ret tt
      end);
  (* close log file, if present *)
  f <~ get_logFile;
  do (match f with
      | Some f => do_call (File_Close f)
      | None => ret tt
      end);
  (* exit with code *)
  match e with
  | Some _ => do do_call (os_Exit 1); ret 1%Z
  | None => do do_call (os_Exit 0); ret 0%Z
  end.

End Program.

(** ** Reading a history *)

(** [w] after the calls [cs], with nothing else changing. *)
Definition logged (cs : list Call) (w : World) : World := {|
  history := history w ++ cs;
  heap := heap w; vars := vars w; logFile := logFile w; fs := fs w;
  store_Config := store_Config w
|}.

(** The subsystem a call starts, with the object it is called on:
  [httpServer.Startup()] and the [Start] methods. *)
Definition started (c : Call) : option (Var * option addr) :=
  match c with
  | Server_Startup p _ => Some (httpServer, p)
  | Start v p _ => Some (v, p)
  | _ => None
  end.

(** The subsystem a call stops: [httpServer.Shutdown()] and the [Stop]
  methods. *)
Definition stopped (c : Call) : option (Var * option addr) :=
  match c with
  | Server_Shutdown p => Some (httpServer, p)
  | Stop v p => Some (v, p)
  | _ => None
  end.

(** The generators [Generate] was called on. *)
Definition generated (c : Call) : option httputil.CertGenerator :=
  match c with
  | CertGenerator_Generate g _ => Some g
  | _ => None
  end.

(** The case the final [select] took. *)
Definition selected (c : Call) : option Case :=
  match c with
  | recv_serveErr _ _ => Some case_serveErr
  | recv_termSig _ => Some case_termSig
  | _ => None
  end.

(** Calls that open a listener or register a handler. *)
Definition serves (c : Call) : bool :=
  match c with
  | Server_Startup _ _ | Start _ _ _ | http_Handle _ _ => true
  | _ => false
  end.

(** Calls that persist the configuration or close the store. *)
Definition persists (c : Call) : bool :=
  match c with
  | store_Write | store_Close => true
  | _ => false
  end.

(** [isFile files name]: a regular file is at [name]. *)
Definition isFile (files : FS) (name : string) : bool :=
  match files !! name with
  | Some (File _) => true
  | _ => false
  end.

(** ** The event-forwarding chain *)

(** Modelled from the spec: a raw controller event, identified by device,
  channel and parameter (the event type is declared by go-hmccu). *)
Record RawEvent := {
  device : string;
  channel : string;
  parameter : string;
  value : string
}.

(** A handler of the chain: publishing to a pub/sub broker, or updating
  the cache of a device collection. *)
Inductive Stage :=
| PublishTo (broker : option addr)
| UpdateCache (devices : addr).

(** Modelled from the spec: the event method of mqtt.EventReceiver and of
  vmodel.DeviceCol (packages mqtt and vmodel are not under src/).  Each raw
  event is handed synchronously to an ordered handler chain: an
  EventReceiver first publishes the event to its broker and then forwards
  the same event to [Next]; the device collection mutates its in-memory
  cache.  [chain] lists the handlers an event goes through from [receiver]
  on, in order; [depth] bounds the number of [Next] links followed. *)
Fixpoint chain (depth : nat) (h : Heap) (receiver : option addr) : list Stage :=
  match depth, receiver with
  | S depth', Some a =>
    match h !! a with
    | Some (OEventReceiver r) =>
      PublishTo (mqtt.EventReceiver.Broker r)
        :: chain depth' h (mqtt.EventReceiver.Next r)
    | Some (ODeviceCol _) => [UpdateCache a]
    | _ => []
    end
  | _, _ => []
  end.

(** The handlers of the Interconnector at [ic]: those of its [Receiver]. *)
Definition handlers (h : Heap) (ic : option addr) : list Stage :=
  match ic ≫= (fun a => h !! a) with
  | Some (OInterconnector i) => chain (length h) h (itf.Receiver i)
  | _ => []
  end.

(** What happens to a raw event the Interconnector at [ic] receives: each
  handler of the chain gets it, in order. *)
Definition dispatch (h : Heap) (ic : option addr) (ev : RawEvent)
    : list (Stage * RawEvent) :=
  (fun s => (s, ev)) <$> handlers h ic.

(** ** The CORS policy of a handler *)

Record Policy := {
  (* the origin list given with AllowedOrigins, if any *)
  origins : option (list string);
  (* whether AllowCredentials was given *)
  credentials : bool;
  methods : option (list string)
}.

Definition apply_option (p : Policy) (o : handlers.CORSOption) : Policy :=
  match o with
  | handlers.AllowedMethods ms =>
    {| origins := origins p; credentials := credentials p; methods := Some ms |}
  | handlers.AllowedOrigins os =>
    {| origins := Some os; credentials := credentials p; methods := methods p |}
  | handlers.AllowCredentials =>
    {| origins := origins p; credentials := true; methods := methods p |}
  end.

(** The policy of a handler: that of its outermost CORS wrapper. *)
Definition policy (h : Handler) : Policy :=
  match h with
  | CORS opts _ =>
    foldl apply_option {| origins := None; credentials := false; methods := None |} opts
  | _ => {| origins := None; credentials := false; methods := None |}
  end.

(** The wildcard origin of the CORS protocol. *)
Definition wildcard : string := "*".

(** Modelled from the spec: the origins a CORS wrapper of gorilla/handlers
  allows (the package is not under src/).  With no origin list every
  origin is allowed; with an origin list the listed origins are allowed,
  and the wildcard entry stands for every origin. *)
Definition allows (p : Policy) (origin : string) : bool :=
  match origins p with
  | None => true
  | Some os => bool_decide (origin ∈ os) || bool_decide (wildcard ∈ os)
  end.

(** The policy allows a wildcard origin: every origin is allowed. *)
Definition allows_wildcard (p : Policy) : bool :=
  match origins p with
  | None => true
  | Some os => bool_decide (wildcard ∈ os)
  end.

(** ** The stages of [run]

  The parts of [run], for the proofs: what it does once the certificates
  are in place ([serve]), and its two deferred functions. *)

Definition farewell : M unit := do_call (log_Info [str "Shutting down"]).

Definition persist (env : Env) : M unit :=
  do Store_Write env; do_call store_Close.

Definition serve (env : Env) : M (option error) :=
  termSig <~ new (OChan 1);
  do do_call (signal_Notify (Some termSig) [SIGINT; SIGTERM]);
  serveErr <~ new (OChan 0);
  do startupBase (Some serveErr);
  defer shutdownBase (
    do startupApp (Some serveErr);
    defer shutdownApp (
      do do_call (time_Sleep (1 * Second)%Z);
      wait env (Some serveErr) (Some termSig))).

(** [run] over its stages. *)
Definition stages (configure_ : M (option error)) (message_ : M unit)
    (certificates_ : M (option error)) (serve_ : M (option error))
    (persist_ farewell_ : M unit) : M (option error) :=
  defer farewell_ (
    e <~ configure_;
    match e with
    | Some e => ret (Some e)
    | None =>
      defer persist_ (
        do message_;
        e <~ certificates_;
        match e with
        | Some e => ret (Some e)
        | None => serve_
        end)
    end).

(** The world in which [run], started in [boot files], calls
  [certificates]. *)
Definition atCertificates (env : Env) (files : FS) : World :=
  after (message env) (after (configure env) (boot files)).

(** The world in which [run], started in [boot files], creates its
  channels, when it gets there. *)
Definition atServe (env : Env) (files : FS) : World :=
  after (certificates env) (atCertificates env files).

(** [w] with the calls [past] before its own. *)
Definition prepend (past : list Call) (w : World) : World := {|
  history := past ++ history w;
  heap := heap w; vars := vars w; logFile := logFile w; fs := fs w;
  store_Config := store_Config w
|}.

(** A world with no history, nothing allocated and every pointer nil. *)
Definition blank (log : option string) (files : FS) (cfg : rtcfg.Config)
    : World := {|
  history := []; heap := []; vars := fun _ => None;
  logFile := log; fs := files; store_Config := cfg
|}.

(** A computation that does not read the history and only appends to it. *)
Definition oblivious {A} (m : M A) : Prop :=
  forall past w,
    (m (prepend past w)).1 = (m w).1
    /\ (m (prepend past w)).2 = prepend past (m w).2.

(** A computation all of whose calls satisfy [P], and that leaves heap and
  variables alone. *)
Definition only (P : Call -> bool) {A} (m : M A) : Prop :=
  forall w, exists cs,
    calls (after m w) = calls w ++ cs /\ forallb P cs = true
    /\ heap (after m w) = heap w /\ vars (after m w) = vars w.

(** The calls of [run] before it creates its channels: logging, the
  configuration store, the file system, the clock and the generator. *)
Definition preparing (c : Call) : bool :=
  match c with
  | logging_SetLevel _ | logging_SetWriter _ | log_Info _ | log_Debugf _ _
  | store_Read _ | store_RLock | store_RUnlock
  | os_Stat _ _ | os_OpenFile _ _ _ _ | time_Now _
  | CertGenerator_Generate _ _ => true
  | _ => false
  end.

(** The value received from serveErr, if any, is an error (not nil). *)
Definition sends_errors (env : Env) : Prop :=
  match env_wakeup env with
  | ServeErrReady None | BothReady None _ => False
  | _ => True
  end.

(** The calls that start a subsystem, with the heap they carry. *)
Definition starting (c : Call) : option (Var * option addr * Heap) :=
  match c with
  | Server_Startup p h => Some (httpServer, p, h)
  | Start v p h => Some (v, p, h)
  | _ => None
  end.

(** The subsystems [run] starts, in the order it starts them, each with
  the address of its object: the HTTP transport, the system-variable
  collection, the program collection, the MQTT broker, the ReGaDOM
  explorer, the device collection and the Interconnector. *)
Definition startOrder : list (Var * option addr) :=
  [(httpServer, Some 2); (sysVarCol, Some 10); (prgCol, Some 11);
   (mqttServer, Some 13); (reGaDOM, Some 17); (deviceCol, Some 8);
   (intercon, Some 16)].

(** The calls of [shutdownApp] and [shutdownBase], on those objects. *)
Definition stops : list Call :=
  [Stop intercon (Some 16); Stop deviceCol (Some 8); Stop reGaDOM (Some 17);
   Stop mqttServer (Some 13); Stop prgCol (Some 11); Stop sysVarCol (Some 10);
   Server_Shutdown (Some 2)].

(** The case of the final [select] that a wake-up leads to. *)
Definition taken (wake : Wakeup) : Case :=
  match wake with
  | ServeErrReady _ => case_serveErr
  | TermSigReady => case_termSig
  | BothReady _ chosen => chosen
  end.

(** The value the final [select] returns. *)
Definition received (wake : Wakeup) : option error :=
  match wake with
  | ServeErrReady v | BothReady v case_serveErr => v
  | _ => None
  end.

(** The forwarding chain as [startupApp] builds it, at the addresses of
  [startOrder]: the Interconnector hands events to the EventReceiver, whose
  broker is the MQTT broker and whose [Next] is the device collection. *)
Definition wired (h : Heap) : Prop :=
  (exists i, h !! 16 = Some (OInterconnector i) /\ itf.Receiver i = Some 15)
  /\ h !! 15 = Some (OEventReceiver {| mqtt.EventReceiver.Broker := Some 13;
                                       mqtt.EventReceiver.Next := Some 8 |})
  /\ (exists b, h !! 13 = Some (OBroker b))
  /\ (exists d, h !! 8 = Some (ODeviceCol d))
  /\ handlers h (Some 16) = [PublishTo (Some 13); UpdateCache 8].

(** The starts after which events flow: the device collection (it starts
  handling events) and the Interconnector (it produces them). *)
Definition handles_events (s : Var * option addr * Heap) : bool :=
  match s with
  | (deviceCol, _, _) | (intercon, _, _) => true
  | _ => false
  end.

(** ** Concrete environments *)

Definition sampleConfig (logPath : string) (corsOrigins : list string)
    : rtcfg.Config := {|
  rtcfg.Logging := {| rtcfg.Logging.Level := logging.InfoLevel;
                      rtcfg.Logging.FilePath := logPath |};
  rtcfg.Host := {| rtcfg.Host.Name := "ccu-jack.local";
                   rtcfg.Host.Address := "192.168.0.2" |};
  rtcfg.HTTP := {| rtcfg.HTTP.Port := 2121; rtcfg.HTTP.PortTLS := 2122;
                   rtcfg.HTTP.CORSOrigins := corsOrigins |};
  rtcfg.MQTT := {| rtcfg.MQTT.Port := 1883; rtcfg.MQTT.PortTLS := 8883 |};
  rtcfg.BINRPC := {| rtcfg.BINRPC.Port := 2123 |};
  rtcfg.CCU := {| rtcfg.CCU.Address := "192.168.0.10";
                  rtcfg.CCU.Interfaces := ["BidCosRF"; "HmIPRF"];
                  rtcfg.CCU.InitID := "CCU-Jack" |}
|}.

(** A generator that does what the specification says of Generate: it
  writes the four files of a fresh chain, replacing what is there. *)
Definition writeChain (g : httputil.CertGenerator) (files : FS)
    : option error * FS :=
  let subject := Join (httputil.Hosts g) "," +:+ " (" +:+ httputil.Organization g
                   +:+ ") from " +:+ Itoa (httputil.NotBefore g)
                   +:+ " to " +:+ Itoa (httputil.NotAfter g) in
  (None,
   <[httputil.ServerKeyFile g := File ("server key for " +:+ subject)]>
   (<[httputil.ServerCertFile g := File ("server certificate for " +:+ subject)]>
   (<[httputil.CAKeyFile g := File ("CA key for " +:+ subject)]>
   (<[httputil.CACertFile g := File ("CA certificate for " +:+ subject)]> files)))).

(** A generator that fails and writes nothing. *)
Definition refuse (g : httputil.CertGenerator) (files : FS)
    : option error * FS :=
  (Some (errorString "certificate generation failed"), files).

Definition sampleEnv (read : error + rtcfg.Config)
    (generate : httputil.CertGenerator -> FS -> option error * FS)
    (wake : Wakeup) : Env := {|
  env_Read := read;
  env_encode := fun cfg => "host=" +:+ rtcfg.Host.Name (rtcfg.Host cfg);
  env_Now := (1600000000 * Second)%Z;
  env_Generate := generate;
  env_LevelString := fun _ => "INFO";
  env_TypesString := fun types => Join types ",";
  env_wakeup := wake
|}.

(** An environment in which the configuration loads, Generate writes a
  chain, and a termination signal ends the wait. *)
Definition calmEnv : Env :=
  sampleEnv (inr (sampleConfig "" [])) writeChain TermSigReady.

(** The world [certificates] is called in on a first start in an empty
  directory. *)
Definition firstStart : World := atCertificates calmEnv ∅.

(** A directory in which a server certificate is left over but its key is
  gone. *)
Definition halfPair : World :=
  atCertificates calmEnv
    {[ serverCertFile := File "an older server certificate" ]}.

(** A directory that holds a complete chain. *)
Definition fullChain : World :=
  atCertificates calmEnv
    {[ caCertFile := File "CA certificate";
       caKeyFile := File "CA key";
       serverCertFile := File "server certificate";
       serverKeyFile := File "server key" ]}.

(** A directory in which the server pair cannot be looked up. *)
Definition lockedPair : World :=
  atCertificates calmEnv
    {[ serverCertFile := Denied EACCES; serverKeyFile := Denied EACCES ]}.

(** An environment in which the configuration file cannot be parsed. *)
Definition brokenEnv : Env :=
  sampleEnv (inl (errorString "ccu-jack.cfg: invalid character")) writeChain
    TermSigReady.

(** An environment in which the configuration loads and Generate fails. *)
Definition stuckEnv : Env :=
  sampleEnv (inr (sampleConfig "" [])) refuse TermSigReady.

(** An environment in which a listener fails to bind while a termination
  signal is pending, and the runtime takes the error. *)
Definition racingEnv : Env :=
  sampleEnv (inr (sampleConfig "" [])) writeChain
    (BothReady (Some (errorString "listen tcp :8883: address already in use"))
               case_serveErr).

(** A raw event: a window contact reports that it opened. *)
Definition contactOpened : RawEvent := {|
  device := "OEQ0123456"; channel := "1"; parameter := "STATE"; value := "true"
|}.

(** A configuration whose CORS origin list is the wildcard. *)
Definition wildcardConfig : rtcfg.Config := sampleConfig "" [wildcard].

(** The contract of Generate that idempotence rests on: when it succeeds,
  the server certificate and the server key are in place. *)
Definition writes_pair (env : Env) : Prop :=
  forall g files,
    (env_Generate env g files).1 = None ->
    isFile (env_Generate env g files).2 (httputil.ServerCertFile g) = true /\
    isFile (env_Generate env g files).2 (httputil.ServerKeyFile g) = true.

(** ** Protocols on the history

  A protocol is an automaton on calls: from a state, a call is refused or
  leads to a state.  [follow] runs it over a list of calls. *)

Fixpoint follow {S} (step : S -> Call -> option S) (s : S) (cs : list Call)
    : option S :=
  match cs with
  | [] => Some s
  | c :: rest =>
    match step s c with
    | Some s' => follow step s' rest
    | None => None
    end
  end.

(** A computation whose calls, from the state [s], are all accepted and
  lead to a state that satisfies [Q]. *)
Definition follows {S} (step : S -> Call -> option S) (s : S) (Q : S -> Prop)
    {A} (m : M A) : Prop :=
  forall w, exists cs s',
    calls (after m w) = calls w ++ cs /\ follow step s cs = Some s' /\ Q s'.


(** The read lock of the configuration store; the state tells whether the
  program holds it.  [RLock] is refused while it is held, [RUnlock] while it
  is not; [Read], [Write], [Close] and [os.Exit] are refused while it is
  held. *)
Definition locking (held : bool) (c : Call) : option bool :=
  match c with
  | store_RLock => if held then None else Some true
  | store_RUnlock => if held then Some false else None
  | store_Read _ | store_Write | store_Close | os_Exit _ =>
    if held then None else Some false
  | _ => Some held
  end.

(** Starting a subsystem and registering a handler are refused while the
  read lock is not held, stopping a subsystem while it is. *)
Definition starts_under_lock (held : bool) (c : Call) : option bool :=
  match c with
  | store_RLock => Some true
  | store_RUnlock => Some false
  | Server_Startup _ _ | Start _ _ _ | http_Handle _ _ =>
    if held then Some true else None
  | Server_Shutdown _ | Stop _ _ => if held then None else Some false
  | _ => Some held
  end.

(** The phases of a run: preparing (configuration, start-up message,
  certificates), starting the subsystems, waiting in the [select], stopping
  the subsystems, persisting the configuration, the store closed, the fatal
  error reported, the log file closed, and the process exited. *)
Inductive Phase :=
| PhasePrepare | PhaseStart | PhaseWait | PhaseStop | PhasePersist
| PhaseClosed | PhaseReport | PhaseLeave | PhaseExited.

(** The calls of each phase, and the calls that lead to the next one. *)
Definition lifecycle (p : Phase) (c : Call) : option Phase :=
  match p, c with
  | PhasePrepare,
    (logging_SetLevel _ | logging_SetWriter _ | log_Info _ | log_Debugf _ _
     | store_Read _ | store_RLock | store_RUnlock | os_Stat _ _
     | os_OpenFile _ _ _ _ | time_Now _ | CertGenerator_Generate _ _) =>
    Some PhasePrepare
  | PhasePrepare, signal_Notify _ _ => Some PhaseStart
  | PhaseStart,
    (store_RLock | store_RUnlock | http_Handle _ _ | model_NewVendor _
     | vmodel_NewConfig _ _ | model_NewHandlerStats _ _ | vmodel_NewDeviceCol _
     | vmodel_NewSysVarCol _ | vmodel_NewProgramCol _ | vmodel_NewRoomCol _ _ _
     | vmodel_NewFunctionCol _ _ _ | script_NewReGaDOM _ | auth_Register _ _
     | log_Infof _ _ | Server_Startup _ _ | Start _ _ _) =>
    Some PhaseStart
  | PhaseStart, time_Sleep _ => Some PhaseWait
  | PhaseWait, (recv_serveErr _ _ | recv_termSig _) => Some PhaseStop
  | PhaseStop, (log_Trace _ | Stop _ _ | Server_Shutdown _) => Some PhaseStop
  | (PhasePrepare | PhaseStop), store_Write => Some PhasePersist
  | PhasePersist, store_Close => Some PhaseClosed
  | PhaseClosed, log_Info _ => Some PhaseClosed
  | (PhasePrepare | PhaseClosed), log_Error _ => Some PhaseReport
  | (PhasePrepare | PhaseClosed | PhaseReport), File_Close _ => Some PhaseLeave
  | (PhasePrepare | PhaseClosed | PhaseReport | PhaseLeave), os_Exit _ =>
    Some PhaseExited
  | _, _ => None
  end.

(** ** Frames *)

(** A computation that leaves the part [f] of the world as it is. *)
Definition preserves {X} (f : World -> X) {A} (m : M A) : Prop :=
  forall w, f (after m w) = f w.

(** [run] once [configure] has succeeded, without its final log line. *)
Definition configured (env : Env) : M (option error) :=
  defer (persist env) (
    do message env;
    e <~ certificates env;
    match e with
    | Some e => ret (Some e)
    | None => serve env
    end).

(** ** The log file *)


(** The flags and the permission bits [configure] opens the log file with:
  O_APPEND|O_CREATE|O_WRONLY and 0644. *)
Definition logFlags : Z := Z.lor (Z.lor O_APPEND O_CREATE) O_WRONLY.
Definition logPerm : Z := 6 * 64 + 4 * 8 + 4.

(** ** Objects and pointers *)

(** [p] points to an object of the heap [h] that satisfies [kind]: it is
  neither nil nor dangling. *)
Definition points_to (kind : Obj -> bool) (h : Heap) (p : option addr) : bool :=
  match p ≫= (fun a => h !! a) with
  | Some o => kind o
  | None => false
  end.

Definition isChan (o : Obj) : bool :=
  match o with OChan _ => true | _ => false end.

Definition isRoot (o : Obj) : bool :=
  match o with ORoot _ => true | _ => false end.

Definition isService (o : Obj) : bool :=
  match o with OService _ => true | _ => false end.

Definition isScriptClient (o : Obj) : bool :=
  match o with OScriptClient _ => true | _ => false end.

Definition isReGaDOM (o : Obj) : bool :=
  match o with OReGaDOM _ => true | _ => false end.

Definition isInterconnector (o : Obj) : bool :=
  match o with OInterconnector _ => true | _ => false end.

Definition isEventReceiver (o : Obj) : bool :=
  match o with OEventReceiver _ => true | _ => false end.

(** The type of object a package-level variable is declared to point to. *)
Definition isKind (v : Var) (o : Obj) : bool :=
  match v, o with
  | httpServer, OServer _ | modelRoot, ORoot _ | modelService, OService _
  | sysVarCol, OSysVarCol _ | prgCol, OProgramCol _ | mqttServer, OBroker _
  | reGaDOM, OReGaDOM _ | deviceCol, ODeviceCol _
  | intercon, OInterconnector _ => true
  | _, _ => false
  end.

(** The pointer fields the program sets on an object before it starts the
  subsystem: each points to an object of its type. *)
Definition equipped (h : Heap) (o : Obj) : bool :=
  match o with
  | OServer s => points_to isChan h (httputil.ServeErr s)
  | OSysVarCol c =>
    points_to isRoot h (vmodel.SysVarCol.col c)
    && points_to isScriptClient h (vmodel.SysVarCol.ScriptClient c)
  | OProgramCol c =>
    points_to isRoot h (vmodel.ProgramCol.col c)
    && points_to isScriptClient h (vmodel.ProgramCol.ScriptClient c)
  | OBroker b =>
    points_to isChan h (mqtt.ServeErr b) && points_to isService h (mqtt.Service b)
  | OReGaDOM d => points_to isScriptClient h (script.client d)
  | ODeviceCol d =>
    points_to isRoot h (vmodel.DeviceCol.col d)
    && points_to isInterconnector h (vmodel.DeviceCol.Interconnector d)
    && points_to isReGaDOM h (vmodel.DeviceCol.ReGaDOM d)
    && points_to isService h (vmodel.DeviceCol.ModelService d)
  | OInterconnector i => points_to isEventReceiver h (itf.Receiver i)
  | _ => true
  end.

(** A start of the subsystem [v] on the receiver [p] with the heap [h]: the
  receiver is an object of the type of [v], and its pointer fields are
  set. *)
Definition ready (s : Var * option addr * Heap) : bool :=
  let '(v, p, h) := s in
  points_to (fun o => isKind v o && equipped h o) h p.

(** A stop of the subsystem [s.1] on the receiver [s.2], in the heap [h]:
  the receiver is an object of the type of the subsystem. *)
Definition live (h : Heap) (s : Var * option addr) : bool :=
  points_to (isKind s.1) h s.2.

(** The handlers registered at the DefaultServeMux, with their patterns. *)
Definition registered (c : Call) : option (string * Handler) :=
  match c with
  | http_Handle pattern h => Some (pattern, h)
  | _ => None
  end.

(** The channel the final [select] received from. *)
Definition receives (c : Call) : option (option addr) :=
  match c with
  | recv_serveErr c _ | recv_termSig c => Some c
  | _ => None
  end.

(** The channels signals are delivered to, with the signals. *)
Definition notified (c : Call) : option (option addr * list Signal) :=
  match c with
  | signal_Notify c sigs => Some (c, sigs)
  | _ => None
  end.

(** The channel of each case of the final [select], at the addresses of a
  run from [boot]: serveErr is the second object allocated, termSig the
  first. *)
Definition channel_of (c : Case) : option addr :=
  match c with
  | case_serveErr => Some 1
  | case_termSig => Some 0
  end.

(** An environment in which the configuration names a log file. *)
Definition loggingEnv : Env :=
  sampleEnv (inr (sampleConfig "ccu-jack.log" [])) writeChain TermSigReady.

(** * Properties *)

(** ** Runs on concrete inputs *)

Example Itoa_port : Itoa 8883 = "8883".
Proof. vm_compute; reflexivity. Qed.

Example Join_origins : Join ["http://a"; "http://b"] "," = "http://a,http://b".
Proof. reflexivity. Qed.

Example IsNotExist_missing : IsNotExist (Stat ∅ serverCertFile) = true.
Proof. reflexivity. Qed.

Example IsNotExist_denied :
  IsNotExist (Stat {[ serverCertFile := Denied EACCES ]} serverCertFile) = false.
Proof. vm_compute; reflexivity. Qed.

(** A first start in an empty directory that ends on a termination signal:
  the four certificate files and the configuration file are written, seven
  subsystems are started, and the exit code is 0. *)
Example first_start_files :
  (isFile (fs (after (run calmEnv) (boot ∅))) <$> certFiles,
   size (fs (after (run calmEnv) (boot ∅))))
  = ([true; true; true; true], 5).
Proof. vm_compute; reflexivity. Qed.

Example first_start_subsystems :
  (omap started (calls (after (run calmEnv) (boot ∅))),
   result (main calmEnv) (boot ∅))
  = (startOrder, 0%Z).
Proof. vm_compute; reflexivity. Qed.

(** The same start when a listener fails: the error is returned and the
  exit code is 1. *)
Example failing_listener :
  (result (run racingEnv) (boot ∅), result (main racingEnv) (boot ∅))
  = (Some (errorString "listen tcp :8883: address already in use"), 1%Z).
Proof. vm_compute; reflexivity. Qed.

(** ** Histories *)

Lemma calls_logged cs w : calls (logged cs w) = calls w ++ cs.
Proof. reflexivity. Qed.

Lemma calls_set_fs files w : calls (after (set_fs files) w) = calls w.
Proof. reflexivity. Qed.

Lemma isFile_Stat files name : isFile files name = true -> Stat files name = None.
Proof.
  unfold isFile, Stat. destruct (files !! name) as [[]|]; done.
Qed.

(** The ten years of the validity window fit a [Duration], and are 3650
  days of 24 hours. *)
Lemma ten_years_in_int64 : in_int64 (10 * 365 * 24 * Hour).
Proof.
  unfold in_int64, int64_min, int64_max. vm_compute. split; discriminate.
Qed.

Lemma ten_years_in_seconds : (10 * 365 * 24 * Hour = 3650 * 86400 * Second)%Z.
Proof. reflexivity. Qed.

(** ** certificates *)

Section Certificates.

Variable env : Env.

(** When neither lookup reports a missing file, [certificates] returns nil
  after the two lookups and touches nothing. *)
Lemma certificates_kept w :
  IsNotExist (Stat (fs w) serverCertFile) = false ->
  IsNotExist (Stat (fs w) serverKeyFile) = false ->
  certificates env w =
    (None, logged [os_Stat serverCertFile (Stat (fs w) serverCertFile);
                   os_Stat serverKeyFile (Stat (fs w) serverKeyFile)] w).
Proof.
  intros Hc Hk.
  unfold certificates, bind, os_Stat_, get_fs, do_call, ret. cbn.
  rewrite Hc, Hk. cbn. unfold logged. cbn. by rewrite <- app_assoc.
Qed.

(** When a lookup reports a missing file, [certificates] calls Generate on
  the generator built from the configured host name and the clock. *)
Lemma certificates_generates w :
  IsNotExist (Stat (fs w) serverCertFile)
    || IsNotExist (Stat (fs w) serverKeyFile) = true ->
  let g := certGenerator (store_Config w) (env_Now env) in
  let out := env_Generate env g (fs w) in
  certificates env w =
    (out.1,
     logged (match out.1 with
             | None => [log_Debugf "Created certificate files: %s, %s, %s, %s"
                          [str caCertFile; str caKeyFile; str serverCertFile;
                           str serverKeyFile]; store_RUnlock]
             | Some _ => [store_RUnlock]
             end)
       (after (set_fs out.2)
          (logged [os_Stat serverCertFile (Stat (fs w) serverCertFile);
                   os_Stat serverKeyFile (Stat (fs w) serverKeyFile);
                   store_RLock; log_Info [str "Generating certificates"];
                   time_Now (env_Now env); CertGenerator_Generate g out.1] w))).
Proof.
  intros H g out.
  assert (negb (IsNotExist (Stat (fs w) serverCertFile))
          && negb (IsNotExist (Stat (fs w) serverKeyFile)) = false) as Hn.
  { destruct (IsNotExist (Stat (fs w) serverCertFile)),
             (IsNotExist (Stat (fs w) serverKeyFile)); done. }
  subst out. destruct (env_Generate env g (fs w)) as [res files'] eqn:HG.
  unfold certificates, defer, bind, os_Stat_, Generate_, time_Now_, get_fs,
    get_Config, do_call, set_fs, ret. cbn. rewrite Hn. cbn. fold g. rewrite HG.
  destruct res; cbn; unfold logged, after, set_fs; cbn;
    by rewrite <- !app_assoc.
Qed.

(** [certificates] allocates nothing and assigns no variable. *)
Lemma certificates_frame w :
  let w' := after (certificates env) w in
  heap w' = heap w /\ vars w' = vars w /\ logFile w' = logFile w
  /\ store_Config w' = store_Config w.
Proof.
  destruct (IsNotExist (Stat (fs w) serverCertFile)
            || IsNotExist (Stat (fs w) serverKeyFile)) eqn:H.
  - cbn zeta. unfold after. rewrite (certificates_generates w H). cbn.
    by destruct (env_Generate env (certGenerator (store_Config w) (env_Now env)) (fs w)).1.
  - apply orb_false_elim in H as [Hc Hk].
    cbn zeta. unfold after. by rewrite (certificates_kept w Hc Hk).
Qed.

End Certificates.

(** [writeChain] honours the contract of Generate. *)
Lemma writeChain_writes_pair read wake :
  writes_pair (sampleEnv read writeChain wake).
Proof.
  intros g files _. unfold isFile. cbn. split.
  - rewrite lookup_insert. case_decide; [done|]. by rewrite lookup_insert_eq.
  - by rewrite lookup_insert_eq.
Qed.

(** C5: [certificates] is idempotent.  In every world [u] in which the
  server certificate file and the server key file both exist, it returns
  nil, leaves the file system as it is and does not call Generate.
  Consequently, for a generator that leaves the pair in place when it
  succeeds: when a first invocation (in any world [w]) returned nil, a second
  invocation right after it returns nil, calls Generate no more, and leaves
  the file system, and so each of the four certificate files, as the first
  one left it. *)
Theorem certificates_idempotent env u w :
  isFile (fs u) serverCertFile = true ->
  isFile (fs u) serverKeyFile = true ->
  writes_pair env ->
  result (certificates env) w = None ->
  (result (certificates env) u = None
   /\ fs (after (certificates env) u) = fs u
   /\ omap generated (calls (after (certificates env) u))
      = omap generated (calls u))
  /\ (let w1 := after (certificates env) w in
      let w2 := after (certificates env) w1 in
      result (certificates env) w1 = None
      /\ fs w2 = fs w1
      /\ (forall name, name ∈ certFiles -> fs w2 !! name = fs w1 !! name)
      /\ omap generated (calls w2) = omap generated (calls w1)).
Proof.
  intros Hc Hk Hgen Hfirst.
  assert (forall v, IsNotExist (Stat (fs v) serverCertFile) = false ->
                    IsNotExist (Stat (fs v) serverKeyFile) = false ->
    result (certificates env) v = None
    /\ fs (after (certificates env) v) = fs v
    /\ omap generated (calls (after (certificates env) v))
       = omap generated (calls v)) as Hkept.
  { intros v H1 H2. unfold result, after. rewrite (certificates_kept env v H1 H2).
    cbn [fst snd]. repeat split. rewrite calls_logged, omap_app. cbn.
    by rewrite app_nil_r. }
  split.
  - apply Hkept; by rewrite isFile_Stat.
  - cbn zeta.
    assert (IsNotExist (Stat (fs (after (certificates env) w)) serverCertFile) = false
            /\ IsNotExist (Stat (fs (after (certificates env) w)) serverKeyFile) = false)
      as [H1 H2].
    { destruct (IsNotExist (Stat (fs w) serverCertFile)
                || IsNotExist (Stat (fs w) serverKeyFile)) eqn:H.
      - unfold result in Hfirst. rewrite (certificates_generates env w H) in Hfirst.
        cbn [fst] in Hfirst. destruct (Hgen _ _ Hfirst) as [G1 G2].
        unfold after. rewrite (certificates_generates env w H).
        cbn [snd]. rewrite Hfirst. cbn [logged after set_fs fs snd].
        apply isFile_Stat in G1, G2.
        cbn [certGenerator httputil.ServerCertFile httputil.ServerKeyFile] in G1, G2.
        by rewrite G1, G2.
      - apply orb_false_elim in H as [H1 H2]. unfold after.
        by rewrite (certificates_kept env w H1 H2). }
    destruct (Hkept _ H1 H2) as (R & F & G). repeat split; try done.
    intros name _. by rewrite F.
Qed.

Lemma certificates_idempotent_witness :
  (isFile (fs (after (certificates calmEnv) firstStart)) serverCertFile = true
   /\ isFile (fs (after (certificates calmEnv) firstStart)) serverKeyFile = true
   /\ writes_pair calmEnv
   /\ result (certificates calmEnv) firstStart = None)
  /\ omap generated (calls (after (certificates calmEnv) firstStart))
     = [certGenerator (sampleConfig "" []) (env_Now calmEnv)]
  /\ result (certificates calmEnv) (after (certificates calmEnv) firstStart) = None
  /\ fs (after (certificates calmEnv) (after (certificates calmEnv) firstStart))
     = fs (after (certificates calmEnv) firstStart).
Proof.
  assert (isFile (fs (after (certificates calmEnv) firstStart)) serverCertFile = true) as Hc
    by (vm_compute; reflexivity).
  assert (isFile (fs (after (certificates calmEnv) firstStart)) serverKeyFile = true) as Hk
    by (vm_compute; reflexivity).
  assert (result (certificates calmEnv) firstStart = None) as Hr
    by (vm_compute; reflexivity).
  pose proof (certificates_idempotent calmEnv
                (after (certificates calmEnv) firstStart) firstStart
                Hc Hk (writeChain_writes_pair _ _) Hr) as [_ (R & F & _)].
  split.
  { split; [exact Hc|]. split; [exact Hk|].
    split; [apply writeChain_writes_pair | exact Hr]. }
  split; [vm_compute; reflexivity|]. split; [exact R | exact F].
Defined.

Lemma caCertFile_in_certFiles : caCertFile ∈ certFiles.
Proof. unfold certFiles. apply list_elem_of_here. Qed.

Lemma serverCertFile_in_certFiles : serverCertFile ∈ certFiles.
Proof.
  unfold certFiles. do 2 apply list_elem_of_further. apply list_elem_of_here.
Qed.

(** C6, as stated, does not hold: in [halfPair] the server certificate file
  exists before the call, the key is missing, so Generate is called on the
  four paths and the existing server certificate is replaced. *)
Lemma certificates_overwrite_counterexample :
  fs halfPair !! serverCertFile = Some (File "an older server certificate")
  /\ fs (after (certificates calmEnv) halfPair) !! serverCertFile
     = Some (File ("server certificate for ccu-jack.local (CCU-Jack) from "
                   +:+ "1600000000000000000 to 1915360000000000000"))
  /\ ~ (forall env w name data,
          name ∈ certFiles ->
          fs w !! name = Some (File data) ->
          fs (after (certificates env) w) !! name = Some (File data)).
Proof.
  assert (fs halfPair !! serverCertFile = Some (File "an older server certificate"))
    as Hold by (vm_compute; reflexivity).
  split; [exact Hold|]. split; [vm_compute; reflexivity|].
  intros H.
  specialize (H calmEnv halfPair serverCertFile "an older server certificate"
                serverCertFile_in_certFiles Hold).
  vm_compute in H. discriminate H.
Qed.

(** C6, amended: [certificates] never overwrites an existing certificate
  pair.  In every world in which the server certificate file and the server
  key file both exist, each of the four certificate files that exists before
  the call has unchanged contents after the call. *)
Theorem certificates_keeps_existing_pair env w name data :
  isFile (fs w) serverCertFile = true ->
  isFile (fs w) serverKeyFile = true ->
  name ∈ certFiles ->
  fs w !! name = Some (File data) ->
  fs (after (certificates env) w) !! name = Some (File data).
Proof.
  intros Hc Hk _ Hname. unfold after.
  rewrite (certificates_kept env w); [exact Hname | |]; by rewrite isFile_Stat.
Qed.

Lemma certificates_keeps_existing_pair_witness :
  fs (after (certificates calmEnv) fullChain) !! caCertFile
  = Some (File "CA certificate").
Proof.
  apply (certificates_keeps_existing_pair calmEnv fullChain caCertFile).
  - vm_compute; reflexivity.
  - vm_compute; reflexivity.
  - exact caCertFile_in_certFiles.
  - vm_compute; reflexivity.
Defined.

(** C7: when [certificates] generates a chain (a lookup of the server pair
  reported a missing file), it calls Generate once, on a generator whose
  validity window starts at the time read from the clock and ends ten years
  of 365 days later, issued for the configured host name with the
  application display name as organization, for the four certificate
  files. *)
Theorem generated_chain_validity env w :
  IsNotExist (Stat (fs w) serverCertFile)
    || IsNotExist (Stat (fs w) serverKeyFile) = true ->
  exists g,
    omap generated (calls (after (certificates env) w))
      = omap generated (calls w) ++ [g]
    /\ time_Now (env_Now env) ∈ calls (after (certificates env) w)
    /\ httputil.NotBefore g = env_Now env
    /\ httputil.NotAfter g = Add (httputil.NotBefore g) (10 * 365 * 24 * Hour)%Z
    /\ (httputil.NotAfter g - httputil.NotBefore g = 3650 * 86400 * Second)%Z
    /\ httputil.Hosts g = [rtcfg.Host.Name (rtcfg.Host (store_Config w))]
    /\ httputil.Organization g = appDisplayName
    /\ [httputil.CACertFile g; httputil.CAKeyFile g;
        httputil.ServerCertFile g; httputil.ServerKeyFile g] = certFiles
    /\ fs (after (certificates env) w) = (env_Generate env g (fs w)).2.
Proof.
  intros H. exists (certGenerator (store_Config w) (env_Now env)).
  unfold after. rewrite (certificates_generates env w H). cbn [snd].
  rewrite !calls_logged, calls_set_fs, calls_logged.
  split; [|split].
  - rewrite !omap_app. cbn [omap generated].
    destruct (env_Generate env _ (fs w)).1; cbn; by rewrite app_nil_r.
  - apply elem_of_app; left. apply elem_of_app; right.
    do 4 apply list_elem_of_further. apply list_elem_of_here.
  - split; [reflexivity|]. split; [reflexivity|].
    split; [cbn [certGenerator httputil.NotAfter httputil.NotBefore];
            rewrite ten_years_in_seconds; unfold Add; lia|].
    split; [reflexivity|]. split; [reflexivity|]. split; [reflexivity|].
    by destruct (env_Generate env _ (fs w)).1.
Qed.

Lemma generated_chain_validity_witness :
  exists g,
    omap generated (calls (after (certificates calmEnv) firstStart))
      = omap generated (calls firstStart) ++ [g]
    /\ httputil.NotBefore g = (1600000000 * Second)%Z
    /\ httputil.NotAfter g = (1915360000 * Second)%Z
    /\ httputil.Hosts g = ["ccu-jack.local"]
    /\ httputil.Organization g = "CCU-Jack".
Proof.
  assert (IsNotExist (Stat (fs firstStart) serverCertFile)
          || IsNotExist (Stat (fs firstStart) serverKeyFile) = true) as H
    by (vm_compute; reflexivity).
  destruct (generated_chain_validity calmEnv firstStart H)
    as (g & Hg & _ & Hb & Ha & _ & Hh & Ho & _).
  exists g. split; [exact Hg|]. split; [exact Hb|].
  split; [rewrite Ha, Hb; vm_compute; reflexivity|].
  split; [rewrite Hh; vm_compute; reflexivity | exact Ho].
Defined.

(** C9: when the lookups of the server certificate file and of the server
  key file both fail with an error other than "does not exist",
  [certificates] treats the pair as present: it returns nil, the errors go
  nowhere but the two lookups, Generate is not called and no file
  changes. *)
Theorem stat_errors_count_as_present env w errCert errKey :
  Stat (fs w) serverCertFile = Some errCert ->
  Stat (fs w) serverKeyFile = Some errKey ->
  IsNotExist (Some errCert) = false ->
  IsNotExist (Some errKey) = false ->
  result (certificates env) w = None
  /\ calls (after (certificates env) w)
     = calls w ++ [os_Stat serverCertFile (Some errCert);
                   os_Stat serverKeyFile (Some errKey)]
  /\ omap generated (calls (after (certificates env) w))
     = omap generated (calls w)
  /\ fs (after (certificates env) w) = fs w.
Proof.
  intros Sc Sk Hc Hk. unfold result, after.
  rewrite (certificates_kept env w); [| by rewrite Sc | by rewrite Sk].
  cbn [fst snd]. rewrite calls_logged, Sc, Sk, omap_app. cbn.
  by rewrite app_nil_r.
Qed.

Lemma stat_errors_count_as_present_witness :
  result (certificates calmEnv) lockedPair = None
  /\ fs (after (certificates calmEnv) lockedPair) = fs lockedPair.
Proof.
  destruct (stat_errors_count_as_present calmEnv lockedPair
              (PathError "stat" serverCertFile EACCES)
              (PathError "stat" serverKeyFile EACCES))
    as (R & _ & _ & F); try (vm_compute; reflexivity).
  split; [exact R | exact F].
Defined.

(** Running the program on a world given by its fields: everything is
  computed but the file-system lookups, the number formatting and the
  arithmetic on symbolic values. *)
Ltac exec :=
  cbv -[Stat OpenFile Itoa insert Z.mul Z.add Z.lor String.append corsHandler].

(** ** Framing the history *)

Lemma oblivious_ret {A} (a : A) : oblivious (ret a).
Proof. intros past w. split; reflexivity. Qed.

Lemma oblivious_bind {A B} (m : M A) (k : A -> M B) :
  oblivious m -> (forall a, oblivious (k a)) -> oblivious (bind m k).
Proof.
  intros Hm Hk past w. unfold bind. destruct (Hm past w) as [H1 H2].
  destruct (m (prepend past w)) as [a' w'']. destruct (m w) as [a w'].
  cbn [fst snd] in *. subst. apply Hk.
Qed.

Lemma oblivious_defer {A} (d : M unit) (body : M A) :
  oblivious d -> oblivious body -> oblivious (defer d body).
Proof.
  intros Hd Hb. unfold defer. apply oblivious_bind; [exact Hb|]. intros r.
  apply oblivious_bind; [exact Hd|]. intros _. apply oblivious_ret.
Qed.

Lemma oblivious_do_call c : oblivious (do_call c).
Proof. intros past w. unfold do_call, prepend. cbn. by rewrite app_assoc. Qed.

Lemma oblivious_new o : oblivious (new o).
Proof. intros past w. split; reflexivity. Qed.

Lemma oblivious_load v : oblivious (load v).
Proof. intros past w. split; reflexivity. Qed.

Lemma oblivious_assign v p : oblivious (assign v p).
Proof. intros past w. split; reflexivity. Qed.

Lemma oblivious_modify p f : oblivious (modify p f).
Proof. intros past w. split; reflexivity. Qed.

Lemma oblivious_get_heap : oblivious get_heap.
Proof. intros past w. split; reflexivity. Qed.

Lemma oblivious_get_Config : oblivious get_Config.
Proof. intros past w. split; reflexivity. Qed.

Lemma oblivious_URLPrefix_of p : oblivious (URLPrefix_of p).
Proof. intros past w. split; reflexivity. Qed.

Create HintDb oblivious.
#[local] Hint Resolve oblivious_ret oblivious_do_call oblivious_new oblivious_load
  oblivious_assign oblivious_modify oblivious_get_heap oblivious_get_Config
  oblivious_URLPrefix_of : oblivious.

Ltac oblivious_step :=
  lazymatch goal with
  | |- oblivious (defer _ _) => apply oblivious_defer
  | |- oblivious (bind _ _) => apply oblivious_bind; [|intros ?]
  | |- oblivious (let _ := _ in _) => cbv zeta
  | |- oblivious _ => solve [auto with oblivious]
  end.

Lemma oblivious_newRoot p : oblivious (newRoot p).
Proof. unfold newRoot. repeat oblivious_step. Qed.

Lemma oblivious_startupBase se : oblivious (startupBase se).
Proof. unfold startupBase. repeat oblivious_step. apply oblivious_newRoot. Qed.

Lemma oblivious_startupApp se : oblivious (startupApp se).
Proof. unfold startupApp. repeat oblivious_step. Qed.

Lemma oblivious_shutdownApp : oblivious shutdownApp.
Proof. unfold shutdownApp. repeat oblivious_step. Qed.

Lemma oblivious_shutdownBase : oblivious shutdownBase.
Proof. unfold shutdownBase. repeat oblivious_step. Qed.

Lemma oblivious_wait env se ts : oblivious (wait env se ts).
Proof.
  unfold wait. destruct (env_wakeup env) as [| |? []]; repeat oblivious_step.
Qed.

Lemma oblivious_serve env : oblivious (serve env).
Proof.
  unfold serve. repeat oblivious_step;
    auto using oblivious_startupBase, oblivious_startupApp,
      oblivious_shutdownApp, oblivious_shutdownBase, oblivious_wait.
Qed.

(** ** The calls of the preparation *)

Lemma only_ret P {A} (a : A) : only P (ret a).
Proof. intros w. exists []. cbn. by rewrite app_nil_r. Qed.

Lemma only_bind P {A B} (m : M A) (k : A -> M B) :
  only P m -> (forall a, only P (k a)) -> only P (bind m k).
Proof.
  intros Hm Hk w. destruct (Hm w) as (cs1 & C1 & P1 & H1 & V1).
  unfold after, bind in *. destruct (m w) as [a w']. cbn [snd] in *.
  destruct (Hk a w') as (cs2 & C2 & P2 & H2 & V2). unfold after in *.
  exists (cs1 ++ cs2). rewrite C2, C1, app_assoc, forallb_app, P1, P2, H2, H1, V2, V1.
  done.
Qed.

Lemma only_defer P {A} (d : M unit) (body : M A) :
  only P d -> only P body -> only P (defer d body).
Proof.
  intros Hd Hb. unfold defer. apply only_bind; [exact Hb|]. intros r.
  apply only_bind; [exact Hd|]. intros _. apply only_ret.
Qed.

Lemma only_do_call (P : Call -> bool) c : P c = true -> only P (do_call c).
Proof. intros H w. exists [c]. cbn. by rewrite H. Qed.

Lemma only_get_Config P : only P get_Config.
Proof. intros w. exists []. cbn. by rewrite app_nil_r. Qed.

Lemma only_get_fs P : only P get_fs.
Proof. intros w. exists []. cbn. by rewrite app_nil_r. Qed.

Lemma only_set_fs P f : only P (set_fs f).
Proof. intros w. exists []. cbn. by rewrite app_nil_r. Qed.

Lemma only_set_Config P c : only P (set_Config c).
Proof. intros w. exists []. cbn. by rewrite app_nil_r. Qed.

Lemma only_set_logFile P f : only P (set_logFile f).
Proof. intros w. exists []. cbn. by rewrite app_nil_r. Qed.

Ltac only_step :=
  lazymatch goal with
  | |- only _ (defer _ _) => apply only_defer
  | |- only _ (bind _ _) => apply only_bind; [|intros ?]
  | |- only _ (ret _) => apply only_ret
  | |- only _ (do_call _) => apply only_do_call; reflexivity
  | |- only _ get_Config => apply only_get_Config
  | |- only _ get_fs => apply only_get_fs
  | |- only _ (set_fs _) => apply only_set_fs
  | |- only _ (set_Config _) => apply only_set_Config
  | |- only _ (set_logFile _) => apply only_set_logFile
  | |- only _ (let _ := _ in _) => cbv zeta
  | |- only _ (match ?x with _ => _ end) => destruct x
  end.

Lemma only_configure env : only preparing (configure env).
Proof.
  unfold configure, Store_Read, os_OpenFile_. repeat only_step.
Qed.

Lemma only_message env : only preparing (message env).
Proof. unfold message. repeat only_step. Qed.

Lemma only_certificates env : only preparing (certificates env).
Proof.
  unfold certificates, os_Stat_, time_Now_, Generate_. repeat only_step.
Qed.

Lemma only_boot P {A} (m : M A) files :
  only P m ->
  forallb P (calls (after m (boot files))) = true
  /\ heap (after m (boot files)) = [] /\ vars (after m (boot files)) = (fun _ => None).
Proof.
  intros H. destruct (H (boot files)) as (cs & C & HP & Hh & Hv).
  rewrite C, Hh, Hv. done.
Qed.

Lemma only_step_world P {A} (m : M A) w :
  only P m -> forallb P (calls w) = true -> heap w = [] -> vars w = (fun _ => None) ->
  forallb P (calls (after m w)) = true
  /\ heap (after m w) = [] /\ vars (after m w) = (fun _ => None).
Proof.
  intros H HP0 Hh0 Hv0. destruct (H w) as (cs & C & HP & Hh & Hv).
  rewrite C, Hh, Hv, forallb_app, HP0, HP. done.
Qed.

Lemma atCertificates_shape env files :
  forallb preparing (calls (atCertificates env files)) = true
  /\ heap (atCertificates env files) = []
  /\ vars (atCertificates env files) = (fun _ => None).
Proof.
  unfold atCertificates.
  destruct (only_boot preparing (configure env) files (only_configure env)) as (P1 & H1 & V1).
  by apply only_step_world; [apply only_message | | |].
Qed.

Lemma atServe_shape env files :
  forallb preparing (calls (atServe env files)) = true
  /\ heap (atServe env files) = []
  /\ vars (atServe env files) = (fun _ => None).
Proof.
  unfold atServe. destruct (atCertificates_shape env files) as (P1 & H1 & V1).
  by apply only_step_world; [apply only_certificates | | |].
Qed.

Lemma preparing_quiet cs :
  forallb preparing cs = true ->
  omap started cs = [] /\ omap stopped cs = [] /\ omap selected cs = []
  /\ omap starting cs = [] /\ filter serves cs = [] /\ filter persists cs = [].
Proof.
  induction cs as [|c cs IH]; [done|].
  cbn [forallb]. intros [Hc Hcs]%andb_prop.
  destruct (IH Hcs) as (I1 & I2 & I3 & I4 & I5 & I6).
  destruct c; try discriminate Hc; cbn; rewrite ?I1, ?I2, ?I3, ?I4; repeat split; try done.
Qed.

(** ** [run], stage by stage *)

Section Stages.

Variables (configure_ : M (option error)) (message_ : M unit)
  (certificates_ : M (option error)) (serve_ : M (option error))
  (persist_ farewell_ : M unit).

Lemma stages_configure_failed w e :
  result configure_ w = Some e ->
  result (stages configure_ message_ certificates_ serve_ persist_ farewell_) w
    = Some e
  /\ after (stages configure_ message_ certificates_ serve_ persist_ farewell_) w
     = after farewell_ (after configure_ w).
Proof.
  unfold stages, result, after, defer, bind, ret.
  destruct (configure_ w) as [r w1]. cbn [fst snd]. intros ->.
  destruct (farewell_ w1) as [[] w2]. cbn [fst snd]. split; reflexivity.
Qed.

Lemma stages_certificates_failed w e :
  result configure_ w = None ->
  result certificates_ (after message_ (after configure_ w)) = Some e ->
  result (stages configure_ message_ certificates_ serve_ persist_ farewell_) w
    = Some e
  /\ after (stages configure_ message_ certificates_ serve_ persist_ farewell_) w
     = after farewell_ (after persist_
         (after certificates_ (after message_ (after configure_ w)))).
Proof.
  unfold stages, result, after, defer, bind, ret.
  destruct (configure_ w) as [r w1]. cbn [fst snd]. intros ->.
  destruct (message_ w1) as [[] w2]. cbn [snd].
  destruct (certificates_ w2) as [r w3]. cbn [fst snd]. intros ->.
  destruct (persist_ w3) as [[] w4]. cbn [fst snd].
  destruct (farewell_ w4) as [[] w5]. cbn [fst snd]. split; reflexivity.
Qed.

Lemma stages_served w :
  oblivious serve_ ->
  result configure_ w = None ->
  result certificates_ (after message_ (after configure_ w)) = None ->
  heap (after certificates_ (after message_ (after configure_ w))) = [] ->
  vars (after certificates_ (after message_ (after configure_ w))) = (fun _ => None) ->
  result (stages configure_ message_ certificates_ serve_ persist_ farewell_) w
   
  = result serve_
      (blank (logFile (after certificates_ (after message_ (after configure_ w))))
             (fs (after certificates_ (after message_ (after configure_ w))))
             (store_Config (after certificates_ (after message_ (after configure_ w)))))
  /\ after (stages configure_ message_ certificates_ serve_ persist_ farewell_) w
     = after farewell_ (after persist_
         (prepend (calls (after certificates_ (after message_ (after configure_ w))))
            (after serve_
               (blank (logFile (after certificates_ (after message_ (after configure_ w))))
                      (fs (after certificates_ (after message_ (after configure_ w))))
                      (store_Config
                         (after certificates_ (after message_ (after configure_ w)))))))).
Proof.
  intros Hobl. unfold stages, result, after, defer, bind, ret.
  destruct (configure_ w) as [r w1]. cbn [fst snd]. intros ->.
  destruct (message_ w1) as [[] w2]. cbn [snd].
  destruct (certificates_ w2) as [r w3]. cbn [fst snd]. intros -> Hh Hv.
  assert (w3 = prepend (calls w3) (blank (logFile w3) (fs w3) (store_Config w3))) as E.
  { destruct w3; cbn in *. subst. unfold prepend, blank, calls. cbn. by rewrite app_nil_r. }
  destruct (Hobl (calls w3) (blank (logFile w3) (fs w3) (store_Config w3))) as [O1 O2].
  rewrite <- E in O1, O2.
  destruct (serve_ w3) as [r w4]. cbn [fst snd] in *. subst r w4.
  destruct (persist_ _) as [[] w5]. cbn [fst snd].
  destruct (farewell_ w5) as [[] w6]. cbn [fst snd]. split; reflexivity.
Qed.

End Stages.

Lemma run_stages env :
  run env = stages (configure env) (message env) (certificates env) (serve env)
              (persist env) farewell.
Proof. unfold run, stages, serve, persist, farewell. reflexivity. Qed.

Lemma closing env w :
  let w' := after farewell (after (persist env) w) in
  calls w' = calls w ++ [store_Write; store_Close; log_Info [str "Shutting down"]]
  /\ fs w' = <[configFile := File (env_encode env (store_Config w))]> (fs w)
  /\ store_Config w' = store_Config w
  /\ heap w' = heap w /\ vars w' = vars w /\ logFile w' = logFile w.
Proof.
  cbn. unfold calls. cbn. rewrite <- !app_assoc. done.
Qed.

Lemma main_exit env w :
  result (main env) w = match result (run env) w with Some _ => 1%Z | None => 0%Z end.
Proof.
  unfold main, result, bind.
  destruct (run env w) as [[e|] w1]; cbn; by destruct (logFile w1).
Qed.

Lemma serve_calls env log files cfg :
  result (serve env) (blank log files cfg) = received (env_wakeup env)
  /\ omap started (calls (after (serve env) (blank log files cfg))) = startOrder
  /\ omap stopped (calls (after (serve env) (blank log files cfg))) = rev startOrder
  /\ omap selected (calls (after (serve env) (blank log files cfg)))
     = [taken (env_wakeup env)]
  /\ filter persists (calls (after (serve env) (blank log files cfg))) = []
  /\ (exists pre, calls (after (serve env) (blank log files cfg)) = pre ++ stops
                  /\ omap stopped pre = []
                  /\ filter persists pre = []
                  /\ omap selected pre = [taken (env_wakeup env)]).
Proof.
  destruct env as [rd enc now gen ls ts wk].
  repeat split.
  6: exists (take (length (calls (after (serve (Build_Env rd enc now gen ls ts wk))
                                   (blank log files cfg))) - 7)
               (calls (after (serve (Build_Env rd enc now gen ls ts wk))
                         (blank log files cfg)))).
  all: destruct wk as [v| |v []]; exec; try reflexivity.
  all: repeat split; reflexivity.
Qed.

Lemma calls_prepend past w : calls (prepend past w) = past ++ calls w.
Proof. reflexivity. Qed.

Lemma run_config_failed env files e :
  result (configure env) (boot files) = Some e ->
  result (run env) (boot files) = Some e
  /\ after (run env) (boot files)
     = after farewell (after (configure env) (boot files)).
Proof. rewrite run_stages. apply stages_configure_failed. Qed.

Lemma run_certificates_failed env files e :
  result (configure env) (boot files) = None ->
  result (certificates env) (atCertificates env files) = Some e ->
  result (run env) (boot files) = Some e
  /\ after (run env) (boot files)
     = after farewell (after (persist env) (atServe env files)).
Proof.
  rewrite run_stages. unfold atServe, atCertificates.
  apply stages_certificates_failed.
Qed.

Lemma run_served env files :
  result (configure env) (boot files) = None ->
  result (certificates env) (atCertificates env files) = None ->
  result (run env) (boot files)
  = result (serve env)
      (blank (logFile (atServe env files)) (fs (atServe env files))
         (store_Config (atServe env files)))
  /\ after (run env) (boot files)
     = after farewell (after (persist env)
         (prepend (calls (atServe env files))
            (after (serve env)
               (blank (logFile (atServe env files)) (fs (atServe env files))
                  (store_Config (atServe env files)))))).
Proof.
  intros H1 H2. destruct (atServe_shape env files) as (_ & H3 & V3).
  revert H1 H2 H3 V3. rewrite run_stages. unfold atServe, atCertificates.
  apply stages_served, oblivious_serve.
Qed.

Lemma omap_app3 {A B} (f : A -> option B) l1 l2 l3 :
  omap f (l1 ++ l2 ++ l3) = omap f l1 ++ omap f l2 ++ omap f l3.
Proof. by rewrite !omap_app. Qed.

(** What [run] leaves when it has served: the calls of the preparation, the
  calls of [serve], and the calls of the deferred functions. *)
Lemma run_served_calls env files :
  result (configure env) (boot files) = None ->
  result (certificates env) (atCertificates env files) = None ->
  exists out,
    out = after (serve env)
            (blank (logFile (atServe env files)) (fs (atServe env files))
               (store_Config (atServe env files)))
    /\ result (run env) (boot files) = received (env_wakeup env)
    /\ calls (after (run env) (boot files))
       = calls (atServe env files) ++ calls out
         ++ [store_Write; store_Close; log_Info [str "Shutting down"]]
    /\ heap (after (run env) (boot files)) = heap out
    /\ vars (after (run env) (boot files)) = vars out.
Proof.
  intros H1 H2. destruct (run_served env files H1 H2) as [-> ->].
  destruct (serve_calls env (logFile (atServe env files)) (fs (atServe env files))
              (store_Config (atServe env files))) as (R & _).
  eexists. split; [reflexivity|]. split; [exact R|].
  generalize (after (serve env)
                (blank (logFile (atServe env files)) (fs (atServe env files))
                   (store_Config (atServe env files)))).
  intros out.
  destruct (closing env (prepend (calls (atServe env files)) out))
    as (C & _ & _ & Hh & Hv & _).
  rewrite C, Hh, Hv, calls_prepend, <- app_assoc. repeat split; reflexivity.
Qed.

(** The subsystems started in a run that serves. *)
Lemma run_started env files :
  result (configure env) (boot files) = None ->
  result (certificates env) (atCertificates env files) = None ->
  omap started (calls (after (run env) (boot files))) = startOrder.
Proof.
  intros H1 H2.
  destruct (run_served_calls env files H1 H2) as (out & Hout & _ & C & _).
  destruct (atServe_shape env files) as (P3 & _).
  destruct (preparing_quiet _ P3) as (Q1 & _).
  destruct (serve_calls env (logFile (atServe env files)) (fs (atServe env files))
              (store_Config (atServe env files))) as (_ & S1 & _).
  rewrite <- Hout in S1. rewrite C, omap_app3, Q1, S1. reflexivity.
Qed.

(** The three ways [run] ends, by its result and the case its [select]
  took. *)
Lemma run_endings env files :
  let r := result (run env) (boot files) in
  let sel := omap selected (calls (after (run env) (boot files))) in
  match result (configure env) (boot files) with
  | Some e => r = Some e /\ sel = []
  | None =>
    match result (certificates env) (atCertificates env files) with
    | Some e => r = Some e /\ sel = []
    | None => r = received (env_wakeup env) /\ sel = [taken (env_wakeup env)]
    end
  end.
Proof.
  cbv zeta. destruct (result (configure env) (boot files)) as [e|] eqn:H1.
  { destruct (run_config_failed env files e H1) as [-> ->].
    destruct (only_boot preparing (configure env) files (only_configure env))
      as (P1 & _).
    destruct (preparing_quiet _ P1) as (_ & _ & Q & _).
    unfold farewell.
    change (calls (after (do_call ?c) ?w)) with (calls w ++ [c]).
    rewrite omap_app, Q. split; reflexivity. }
  destruct (atServe_shape env files) as (P3 & _).
  destruct (preparing_quiet _ P3) as (_ & _ & Q & _).
  destruct (result (certificates env) (atCertificates env files)) as [e|] eqn:H2.
  { destruct (run_certificates_failed env files e H1 H2) as [-> ->].
    destruct (closing env (atServe env files)) as (C & _).
    rewrite C, omap_app, Q. split; reflexivity. }
  destruct (run_served_calls env files H1 H2) as (out & Hout & -> & -> & _).
  destruct (serve_calls env (logFile (atServe env files)) (fs (atServe env files))
              (store_Config (atServe env files))) as (_ & _ & _ & S & _).
  rewrite <- Hout in S. rewrite omap_app3, Q, S. split; reflexivity.
Qed.

Lemma main_exit_codes env w :
  (result (main env) w = 0%Z <-> result (run env) w = None)
  /\ (result (main env) w = 1%Z <-> result (run env) w <> None).
Proof.
  rewrite main_exit. destruct (result (run env) w); split; split; try done.
Qed.

(** ** The forwarding chain *)

Ltac show_wired :=
  split; [eexists; split; reflexivity|];
  split; [reflexivity|];
  split; [eexists; reflexivity|];
  split; [eexists; reflexivity|reflexivity].

(** In [serve], the chain is in the heap when the device collection and the
  Interconnector are started, and stays. *)
Lemma serve_chain env log files cfg :
  wired (heap (after (serve env) (blank log files cfg)))
  /\ vars (after (serve env) (blank log files cfg)) intercon = Some 16
  /\ vars (after (serve env) (blank log files cfg)) mqttServer = Some 13
  /\ vars (after (serve env) (blank log files cfg)) deviceCol = Some 8
  /\ Forall (fun s => handles_events s = true -> wired s.2)
       (omap starting (calls (after (serve env) (blank log files cfg)))).
Proof.
  destruct env as [rd enc now gen ls ts wk]. unfold wired.
  destruct wk as [v| |v []]; exec.
  all: split; [show_wired|].
  all: split; [reflexivity|]; split; [reflexivity|]; split; [reflexivity|].
  all: repeat (apply List.Forall_cons;
               [first [discriminate | intros _; show_wired]|]).
  all: apply List.Forall_nil.
Qed.

Lemma dispatch_wired h ev :
  wired h ->
  dispatch h (Some 16) ev = [(PublishTo (Some 13), ev); (UpdateCache 8, ev)].
Proof. intros (_ & _ & _ & _ & H). unfold dispatch. by rewrite H. Qed.

(** C1: in a run that gets to [startupApp] (the configuration loaded and
  the certificates are in place), the event-forwarding chain is built so
  that every raw controller event the Interconnector receives is first
  published to the MQTT broker and then forwarded to the cache of the device
  collection: the Interconnector's Receiver is the EventReceiver, whose
  Broker is [mqttServer] and whose Next is [deviceCol].  The chain is
  already complete in the heap that the calls [deviceCol.Start()] and
  [intercon.Start()] are made with, and the Interconnector is the last
  subsystem started. *)
Theorem forwarding_chain_before_producers env files :
  result (configure env) (boot files) = None ->
  result (certificates env) (atCertificates env files) = None ->
  let w := after (run env) (boot files) in
  vars w intercon = Some 16 /\ vars w mqttServer = Some 13
  /\ vars w deviceCol = Some 8
  /\ wired (heap w)
  /\ (forall ev,
        dispatch (heap w) (vars w intercon) ev
        = [(PublishTo (vars w mqttServer), ev); (UpdateCache 8, ev)])
  /\ Forall (fun s =>
       handles_events s = true ->
       wired s.2
       /\ forall ev,
            dispatch s.2 (Some 16) ev
            = [(PublishTo (Some 13), ev); (UpdateCache 8, ev)])
       (omap starting (calls w))
  /\ omap started (calls w) = startOrder
  /\ last (omap started (calls w)) = Some (intercon, Some 16).
Proof.
  intros H1 H2. cbv zeta.
  pose proof (run_started env files H1 H2) as S.
  destruct (run_served_calls env files H1 H2) as (out & Hout & _ & C & Hh & Hv).
  destruct (atServe_shape env files) as (P3 & _).
  destruct (preparing_quiet _ P3) as (_ & _ & _ & Q & _).
  destruct (serve_chain env (logFile (atServe env files)) (fs (atServe env files))
              (store_Config (atServe env files))) as (W & V1 & V2 & V3 & F).
  rewrite <- Hout in W, V1, V2, V3, F. clear Hout.
  rewrite S, C, Hh, Hv, omap_app3, Q, V1, V2, V3. clear S C Hh Hv Q P3.
  revert W F. generalize (heap out) (omap starting (calls out)). clear.
  intros h ss W F.
  repeat split; try reflexivity; try apply W.
  - intros ev. by apply dispatch_wired.
  - cbn [app omap starting]. rewrite app_nil_r.
    induction F as [|s ss Hs F IH]; constructor; [|exact IH].
    intros Hp. split; [exact (Hs Hp)|]. intros ev. apply dispatch_wired, Hs, Hp.
Qed.

Lemma forwarding_chain_before_producers_witness :
  dispatch (heap (after (run calmEnv) (boot ∅)))
           (vars (after (run calmEnv) (boot ∅)) intercon) contactOpened
  = [(PublishTo (Some 13), contactOpened); (UpdateCache 8, contactOpened)].
Proof.
  destruct (forwarding_chain_before_producers calmEnv ∅)
    as (_ & V & _ & _ & D & _).
  - vm_compute; reflexivity.
  - vm_compute; reflexivity.
  - rewrite (D contactOpened), V. reflexivity.
Defined.

(** ** Shutdown *)

(** C2: every run that gets to [startupApp] starts the subsystems in the
  order of [startOrder] and, whichever case its [select] took, stops them in
  the strict reverse of that order (Interconnector, device collection,
  ReGaDOM explorer, MQTT broker, program collection, system-variable
  collection, then the HTTP transport), each stop on the object that was
  started; [store.Write()] and [store.Close()] come after all of these
  stops and before the final log line.  The stop calls return nothing the
  program looks at, so nothing they do changes what follows. *)
Theorem shutdown_reverses_startup env files :
  result (configure env) (boot files) = None ->
  result (certificates env) (atCertificates env files) = None ->
  omap started (calls (after (run env) (boot files))) = startOrder
  /\ omap stopped (calls (after (run env) (boot files)))
     = rev (omap started (calls (after (run env) (boot files))))
  /\ exists pre,
       calls (after (run env) (boot files))
       = pre ++ stops ++ [store_Write; store_Close; log_Info [str "Shutting down"]]
       /\ omap selected pre = [taken (env_wakeup env)]
       /\ omap stopped pre = []
       /\ filter persists pre = [].
Proof.
  intros H1 H2.
  destruct (run_served_calls env files H1 H2) as (out & Hout & _ & C & _).
  destruct (atServe_shape env files) as (P3 & _).
  destruct (preparing_quiet _ P3) as (Q1 & Q2 & Q3 & _ & _ & Q6).
  destruct (serve_calls env (logFile (atServe env files)) (fs (atServe env files))
              (store_Config (atServe env files)))
    as (_ & S1 & S2 & _ & _ & pre & Spre & T1 & T2 & T3).
  rewrite <- Hout in S1, S2, Spre. clear Hout. rewrite C. clear C.
  revert Q1 Q2 Q3 Q6. generalize (calls (atServe env files)).
  intros past Q1 Q2 Q3 Q6.
  revert S1 S2 Spre. generalize (calls out). intros cs S1 S2 Spre.
  rewrite !omap_app3, Q1, Q2, S1, S2.
  split; [reflexivity|]. split; [reflexivity|].
  exists (past ++ pre).
  rewrite Spre, !omap_app, filter_app, Q2, Q3, Q6, T1, T2, T3.
  rewrite <- !app_assoc. repeat split; reflexivity.
Qed.

Lemma shutdown_reverses_startup_witness :
  omap stopped (calls (after (run racingEnv) (boot ∅)))
  = [(intercon, Some 16); (deviceCol, Some 8); (reGaDOM, Some 17);
     (mqttServer, Some 13); (prgCol, Some 11); (sysVarCol, Some 10);
     (httpServer, Some 2)].
Proof.
  destruct (shutdown_reverses_startup racingEnv ∅) as (S & R & _).
  - vm_compute; reflexivity.
  - vm_compute; reflexivity.
  - rewrite R, S. reflexivity.
Defined.

(** ** The exit contract *)

(** C3: when the values sent on serveErr are errors, [run] returns nil
  exactly when its [select] took the termination-signal case, and then
  [main] exits with code 0; when the [select] took the serveErr case [run]
  returns the error received, and when [configure] or [certificates] fails
  [run] returns that error without getting to the [select]: in these cases
  [main] exits with code 1.  The [select] takes at most one case, and
  exactly one in a run that gets to it, also when a signal and an error are
  both ready. *)
Theorem exit_contract env files :
  sends_errors env ->
  let r := result (run env) (boot files) in
  let sel := omap selected (calls (after (run env) (boot files))) in
  (r = None <-> sel = [case_termSig])
  /\ (result (main env) (boot files) = 0%Z <-> r = None)
  /\ (result (main env) (boot files) = 1%Z <-> r <> None)
  /\ (sel = [case_serveErr] -> r = received (env_wakeup env) /\ r <> None)
  /\ (result (configure env) (boot files) <> None ->
      r = result (configure env) (boot files) /\ sel = [])
  /\ (result (configure env) (boot files) = None ->
      result (certificates env) (atCertificates env files) <> None ->
      r = result (certificates env) (atCertificates env files) /\ sel = [])
  /\ (result (configure env) (boot files) = None ->
      result (certificates env) (atCertificates env files) = None ->
      sel = [taken (env_wakeup env)])
  /\ length sel <= 1.
Proof.
  intros Hsend. cbv zeta.
  destruct (main_exit_codes env (boot files)) as [M0 M1].
  split; [|split; [exact M0|split; [exact M1|]]]; clear M0 M1.
  all: pose proof (run_endings env files) as E; cbv zeta in E; revert E.
  all: generalize (result (run env) (boot files))
         (omap selected (calls (after (run env) (boot files))))
         (result (configure env) (boot files))
         (result (certificates env) (atCertificates env files)).
  all: unfold sends_errors in Hsend; revert Hsend.
  all: generalize (env_wakeup env); clear env files.
  all: intros wake Hsend r sel c1 c2 E.
  all: destruct c1 as [e1|]; [|destruct c2 as [e2|]]; destruct E as [-> ->].
  all: try (destruct wake as [[e|]| |[e|] []]; cbn [received taken] in *;
            try contradiction).
  all: cbn [length]; intuition (try discriminate; try congruence; try lia).
Qed.

Lemma exit_contract_witness :
  result (run racingEnv) (boot ∅)
  = Some (errorString "listen tcp :8883: address already in use")
  /\ result (main racingEnv) (boot ∅) = 1%Z
  /\ omap selected (calls (after (run racingEnv) (boot ∅))) = [case_serveErr].
Proof.
  assert (sends_errors racingEnv) as Hs by exact I.
  destruct (exit_contract racingEnv ∅ Hs) as (_ & _ & M1 & E & _ & _ & T & _).
  assert (omap selected (calls (after (run racingEnv) (boot ∅))) = [case_serveErr])
    as Hsel.
  { apply T; vm_compute; reflexivity. }
  destruct (E Hsel) as [R N].
  split; [exact R|]. split; [apply M1; exact N | exact Hsel].
Defined.

(** ** Failures before the listeners *)

(** C4: when reading the configuration fails, [run] returns that error
  after three calls: the initial log level, the failed read, and the final
  log line.  The certificate files are not looked up, Generate is not
  called, no file changes, nothing is allocated and nothing is started;
  [main] logs the error and exits with code 1. *)
Theorem config_failure_aborts env files e :
  env_Read env = inl e ->
  result (run env) (boot files) = Some e
  /\ calls (after (run env) (boot files))
     = [logging_SetLevel logging.ErrorLevel; store_Read (Some e);
        log_Info [str "Shutting down"]]
  /\ fs (after (run env) (boot files)) = files
  /\ heap (after (run env) (boot files)) = []
  /\ result (main env) (boot files) = 1%Z
  /\ calls (after (main env) (boot files))
     = [logging_SetLevel logging.ErrorLevel; store_Read (Some e);
        log_Info [str "Shutting down"]; log_Error [err e]; os_Exit 1].
Proof.
  intros H. destruct env as [rd enc now gen ls ts wk]. cbn in H. subst rd.
  repeat split; exec; reflexivity.
Qed.

Lemma config_failure_aborts_witness :
  result (run brokenEnv) (boot ∅)
  = Some (errorString "ccu-jack.cfg: invalid character")
  /\ omap generated (calls (after (run brokenEnv) (boot ∅))) = []
  /\ filter serves (calls (after (run brokenEnv) (boot ∅))) = []
  /\ fs (after (run brokenEnv) (boot ∅)) = ∅
  /\ result (main brokenEnv) (boot ∅) = 1%Z.
Proof.
  destruct (config_failure_aborts brokenEnv ∅
              (errorString "ccu-jack.cfg: invalid character") eq_refl)
    as (R & C & F & _ & X & _).
  rewrite C. split; [exact R|]. split; [reflexivity|]. split; [reflexivity|].
  split; [exact F | exact X].
Defined.

(** C10: once [configure] has succeeded, every run ends with
  [store.Write()], [store.Close()] and the final log line, in this order
  and made nowhere else, and the configuration file holds the persisted
  snapshot.  In particular, when [certificates] then fails, [run] returns
  that error right after the calls of [certificates], with no listener
  opened, no handler registered, no subsystem started and nothing
  allocated, and still rewrites the configuration file. *)
Theorem persisted_on_every_exit env files :
  result (configure env) (boot files) = None ->
  let w := after (run env) (boot files) in
  (exists pre,
     calls w = pre ++ [store_Write; store_Close; log_Info [str "Shutting down"]]
     /\ filter persists pre = [])
  /\ fs w !! configFile = Some (File (env_encode env (store_Config w)))
  /\ (forall e,
        result (certificates env) (atCertificates env files) = Some e ->
        result (run env) (boot files) = Some e
        /\ calls w = calls (atServe env files)
                     ++ [store_Write; store_Close; log_Info [str "Shutting down"]]
        /\ filter serves (calls w) = []
        /\ heap w = []).
Proof.
  intros Hcfg. cbv zeta.
  destruct (atServe_shape env files) as (P3 & H3 & V3).
  destruct (preparing_quiet _ P3) as (_ & _ & _ & _ & S3 & W3).
  destruct (result (certificates env) (atCertificates env files)) as [e|] eqn:Hcert.
  - destruct (run_certificates_failed env files e Hcfg Hcert) as [-> ->].
    destruct (closing env (atServe env files)) as (C & F & G & Hh & _).
    rewrite C, F, G, Hh, H3, filter_app, S3.
    split; [|split].
    + eexists. split; [reflexivity | exact W3].
    + apply lookup_insert_eq.
    + intros e' [= <-]. split; [reflexivity|]. split; [reflexivity|].
      split; reflexivity.
  - destruct (run_served env files Hcfg Hcert) as [-> ->].
    destruct (serve_calls env (logFile (atServe env files)) (fs (atServe env files))
                (store_Config (atServe env files))) as (_ & _ & _ & _ & W4 & _).
    revert W4.
    generalize (after (serve env)
                  (blank (logFile (atServe env files)) (fs (atServe env files))
                     (store_Config (atServe env files)))).
    intros out W4.
    destruct (closing env (prepend (calls (atServe env files)) out))
      as (C & F & G & _).
    rewrite C, F, G, calls_prepend.
    split; [|split].
    + eexists. split; [reflexivity|]. rewrite filter_app, W3, W4. reflexivity.
    + apply lookup_insert_eq.
    + intros e' [=].
Qed.

Lemma persisted_on_every_exit_witness :
  result (run stuckEnv) (boot ∅) = Some (errorString "certificate generation failed")
  /\ filter serves (calls (after (run stuckEnv) (boot ∅))) = []
  /\ fs (after (run stuckEnv) (boot ∅)) !! configFile
     = Some (File "host=ccu-jack.local").
Proof.
  assert (result (configure stuckEnv) (boot ∅) = None) as Hcfg
    by (vm_compute; reflexivity).
  destruct (persisted_on_every_exit stuckEnv ∅ Hcfg) as (_ & F & K).
  destruct (K (errorString "certificate generation failed")) as (R & _ & S & _).
  { vm_compute; reflexivity. }
  split; [exact R|]. split; [exact S|].
  rewrite F. vm_compute. reflexivity.
Defined.

(** ** CORS *)

(** [startupBase] registers the VEAP handler last, wrapped by
  [corsHandler] for the configuration it read. *)
Lemma startupBase_registers serveErr w :
  exists pre pattern a,
    calls (after (startupBase serveErr) w)
    = pre ++ [http_Handle pattern (corsHandler (store_Config w) (HandlerAt a));
              store_RUnlock].
Proof.
  destruct w as [past h vs lf fl cf]. unfold after, calls.
  cbv -[Itoa String.append corsHandler app length lookup alter].
  do 3 eexists. rewrite <- app_assoc. reflexivity.
Qed.

(** C8, as stated, does not hold: with the wildcard as the configured
  origin list, the list is not empty, so the wrapper gets the wildcard
  origin together with the credentials option. *)
Lemma cors_wildcard_counterexample :
  corsHandler wildcardConfig (HandlerAt 7)
  = CORS [handlers.AllowedMethods [MethodGet; MethodPut];
          handlers.AllowedOrigins [wildcard]; handlers.AllowCredentials]
      (HandlerAt 7)
  /\ credentials (policy (corsHandler wildcardConfig (HandlerAt 7))) = true
  /\ allows_wildcard (policy (corsHandler wildcardConfig (HandlerAt 7))) = true
  /\ ~ (forall cfg h,
          credentials (policy (corsHandler cfg h)) = true ->
          allows_wildcard (policy (corsHandler cfg h)) = false).
Proof.
  split; [reflexivity|]. split; [reflexivity|]. split; [reflexivity|].
  intros H. specialize (H wildcardConfig (HandlerAt 7) eq_refl). discriminate H.
Qed.

(** C8, amended: [startupBase] registers the VEAP handler wrapped by a CORS
  policy that follows the configured origin list.  If the list is empty the
  wrapper only gets the allowed methods: every origin is allowed and
  credentials are not.  If the list is not empty the wrapper gets the
  allowed methods, exactly the configured list as allowed origins, and the
  credentials option; when that list does not contain the wildcard, exactly
  the configured origins are allowed and the policy allows no wildcard
  origin.  Credentials are permitted exactly when the list is not empty. *)
Theorem cors_policy_follows_origin_list serveErr w h :
  let cfg := store_Config w in
  let configured := rtcfg.HTTP.CORSOrigins (rtcfg.HTTP cfg) in
  let p := policy (corsHandler cfg h) in
  (exists pre pattern a,
     calls (after (startupBase serveErr) w)
     = pre ++ [http_Handle pattern (corsHandler cfg (HandlerAt a)); store_RUnlock])
  /\ (configured = [] ->
      corsHandler cfg h = CORS [handlers.AllowedMethods [MethodGet; MethodPut]] h
      /\ (forall origin, allows p origin = true)
      /\ credentials p = false)
  /\ (configured <> [] ->
      corsHandler cfg h
      = CORS [handlers.AllowedMethods [MethodGet; MethodPut];
              handlers.AllowedOrigins configured; handlers.AllowCredentials] h
      /\ origins p = Some configured
      /\ credentials p = true
      /\ (wildcard ∉ configured ->
          allows_wildcard p = false
          /\ forall origin, allows p origin = true <-> origin ∈ configured))
  /\ (credentials p = true <-> configured <> []).
Proof.
  cbv zeta. split; [apply startupBase_registers|].
  unfold corsHandler.
  destruct (rtcfg.HTTP.CORSOrigins (rtcfg.HTTP (store_Config w))) as [|o os] eqn:E.
  - cbn. split; [|split].
    + intros _. split; [reflexivity|]. split; [intros; reflexivity | reflexivity].
    + intros H. contradiction.
    + split; [discriminate | intros H; contradiction].
  - cbn [length policy foldl apply_option origins credentials methods].
    destruct (decide (S (length os) = 0)) as [[=]|_].
    split; [|split].
    + intros [=].
    + intros _. split; [reflexivity|]. split; [reflexivity|]. split; [reflexivity|].
      intros Hw. unfold allows_wildcard, allows.
      cbn [policy foldl apply_option origins credentials methods].
      rewrite (bool_decide_eq_false_2 _ Hw). split; [reflexivity|].
      intros origin. rewrite orb_false_r. apply bool_decide_eq_true.
    + split; [intros _ [=] | reflexivity].
Qed.

(** * Further properties *)

(** ** Protocols *)

Example nested_read_lock_refused :
  follow locking false [store_RLock; store_RLock] = None.
Proof. reflexivity. Qed.

Example write_under_read_lock_refused :
  follow locking false [store_RLock; store_Write; store_RUnlock] = None.
Proof. reflexivity. Qed.

Example start_without_lock_refused :
  follow starts_under_lock false [Start intercon (Some 16) []] = None.
Proof. reflexivity. Qed.

Example stop_before_select_refused :
  follow lifecycle PhaseStart [time_Sleep Second; Stop intercon (Some 16)] = None.
Proof. reflexivity. Qed.

Example log_after_close_refused :
  follow lifecycle PhaseClosed
    [File_Close "ccu-jack.log"; log_Error [str "late"]; os_Exit 1] = None.
Proof. reflexivity. Qed.

Lemma follow_app {S} (step : S -> Call -> option S) s cs1 cs2 :
  follow step s (cs1 ++ cs2) = follow step s cs1 ≫= fun s' => follow step s' cs2.
Proof.
  revert s. induction cs1 as [|c cs1 IH]; intros s; [reflexivity|].
  cbn. destruct (step s c); [apply IH | reflexivity].
Qed.


Section Follows.

Context {S : Type} (step : S -> Call -> option S).

Lemma follows_silent {A} (m : M A) s (Q : S -> Prop) :
  (forall w, calls (after m w) = calls w) -> Q s -> follows step s Q m.
Proof. intros H HQ w. exists [], s. rewrite H, app_nil_r. done. Qed.

Lemma follows_ret {A} (a : A) s (Q : S -> Prop) : Q s -> follows step s Q (ret a).
Proof. by apply follows_silent. Qed.

Lemma follows_bind {A B} (m : M A) (k : A -> M B) s (Q1 Q : S -> Prop) :
  follows step s Q1 m -> (forall a s1, Q1 s1 -> follows step s1 Q (k a)) ->
  follows step s Q (bind m k).
Proof.
  intros Hm Hk w. destruct (Hm w) as (cs1 & s1 & C1 & F1 & HQ1).
  unfold after, bind in *. destruct (m w) as [a w']. cbn [snd] in *.
  destruct (Hk a s1 HQ1 w') as (cs2 & s2 & C2 & F2 & HQ2). unfold after in C2.
  exists (cs1 ++ cs2), s2. rewrite C2, C1, app_assoc, follow_app, F1. done.
Qed.

Lemma follows_defer {A} (d : M unit) (body : M A) s (Q1 Q : S -> Prop) :
  follows step s Q1 body -> (forall s1, Q1 s1 -> follows step s1 Q d) ->
  follows step s Q (defer d body).
Proof.
  intros Hb Hd. unfold defer. eapply follows_bind; [exact Hb|]. intros r s1 H1.
  eapply follows_bind; [exact (Hd s1 H1)|]. intros _ s2 H2. by apply follows_ret.
Qed.

Lemma follows_do_call c s s' (Q : S -> Prop) :
  step s c = Some s' -> Q s' -> follows step s Q (do_call c).
Proof. intros H HQ w. exists [c], s'. cbn. by rewrite H. Qed.

End Follows.

(** The state reached: it is the one asked for, or it decides the one to
  ask for. *)
Ltac follows_post :=
  cbv beta;
  lazymatch goal with
  | |- ?Q _ =>
    tryif is_evar Q then
      lazymatch goal with |- _ ?s => instantiate (1 := eq s); reflexivity end
    else first [reflexivity | left; follows_post | right; follows_post]
  end.

Ltac follows_subst :=
  cbv beta in *;
  repeat match goal with
  | H : _ \/ _ |- _ => destruct H
  end;
  subst.

Ltac follows_step :=
  lazymatch goal with
  | |- forall _, _ => intros; follows_subst
  | |- follows _ _ _ (defer _ _) => eapply follows_defer
  | |- follows _ _ _ (bind _ _) => eapply follows_bind
  | |- follows _ _ _ (ret _) => apply follows_ret; follows_post
  | |- follows _ _ _ (do_call _) =>
    eapply follows_do_call; [reflexivity | follows_post]
  | |- follows _ _ _ (let _ := _ in _) => cbv zeta
  | |- follows _ _ _ (match ?x with _ => _ end) => destruct x
  | |- follows _ _ _ _ =>
    apply follows_silent; [intros ?; reflexivity | follows_post]
  end.

Ltac unfold_serve :=
  unfold serve, startupBase, newRoot, shutdownBase, startupApp, shutdownApp, wait.

Ltac unfold_program :=
  unfold main, run, configure, message, certificates, Store_Read, Store_Write,
    os_Stat_, os_OpenFile_, time_Now_, Generate_;
  unfold_serve.

Lemma follows_main_locking env : follows locking false (eq false) (main env).
Proof. unfold_program. repeat follows_step. Qed.

Lemma follows_main_starts env :
  follows starts_under_lock false (eq false) (main env).
Proof. unfold_program. repeat follows_step. Qed.



(** X1: the program keeps the discipline of the read lock of the
  configuration store.  Whatever the environment and the world [main]
  starts in, with the lock free: it never takes the read lock while it holds
  it, releases it only while it holds it, reads, writes and closes the store
  only while it does not hold it, and holds no lock when it calls
  [os.Exit]: every [RLock] of [configure], [message], [certificates],
  [startupBase] and [startupApp] is paired with the deferred [RUnlock] on
  every path, also on the failure paths. *)
Theorem read_lock_discipline env w :
  exists cs,
    calls (after (main env) w) = calls w ++ cs
    /\ follow locking false cs = Some false.
Proof.
  destruct (follows_main_locking env w) as (cs & s & C & F & <-). by exists cs.
Qed.

(** X2: every subsystem is started, and every handler is registered at the
  DefaultServeMux, while the program holds the read lock of the
  configuration store ([startupBase] and [startupApp] release it when they
  return); every subsystem is stopped while it does not hold it. *)
Theorem started_under_read_lock env w :
  exists cs,
    calls (after (main env) w) = calls w ++ cs
    /\ follow starts_under_lock false cs = Some false.
Proof.
  destruct (follows_main_starts env w) as (cs & s & C & F & <-). by exists cs.
Qed.


(** ** Frames *)

Section Preserves.

Context {X : Type} (f : World -> X).

Lemma preserves_ret {A} (a : A) : preserves f (ret a).
Proof. intros w. reflexivity. Qed.

Lemma preserves_bind {A B} (m : M A) (k : A -> M B) :
  preserves f m -> (forall a, preserves f (k a)) -> preserves f (bind m k).
Proof.
  intros Hm Hk w. specialize (Hm w). unfold after, bind in *.
  destruct (m w) as [a w']. cbn [snd] in *. rewrite <- Hm. apply Hk.
Qed.

Lemma preserves_defer {A} (d : M unit) (body : M A) :
  preserves f d -> preserves f body -> preserves f (defer d body).
Proof.
  intros Hd Hb. unfold defer. apply preserves_bind; [exact Hb|]. intros r.
  apply preserves_bind; [exact Hd|]. intros _. apply preserves_ret.
Qed.

End Preserves.

Ltac preserves_step :=
  lazymatch goal with
  | |- forall _, _ => intros
  | |- preserves _ (defer _ _) => apply preserves_defer
  | |- preserves _ (bind _ _) => apply preserves_bind
  | |- preserves _ (let _ := _ in _) => cbv zeta
  | |- preserves _ (match ?x with _ => _ end) => destruct x
  | |- preserves _ _ => intros ?; reflexivity
  end.

(** One step of a computation on a world given by its fields. *)
Ltac step_world :=
  cbv [result after bind defer ret do_call new load assign modify set_logFile
       get_logFile get_fs set_fs get_Config get_heap set_Config calls logged
       fst snd history heap vars logFile fs store_Config].


Lemma preserves_Config_message env : preserves store_Config (message env).
Proof. unfold message. repeat preserves_step. Qed.


(** ** [run] after [configure], and [main] after [run] *)

Section Configured.

Variables (configure_ : M (option error)) (message_ : M unit)
  (certificates_ : M (option error)) (serve_ : M (option error))
  (persist_ farewell_ : M unit).


End Configured.


(** The calls of [main] after those of [run]: the fatal error if any, the
  log file closed if there is one, and the exit. *)
Lemma main_calls env w :
  calls (after (main env) w)
  = calls (after (run env) w)
    ++ match result (run env) w with Some e => [log_Error [err e]] | None => [] end
    ++ match logFile (after (run env) w) with Some f => [File_Close f] | None => [] end
    ++ [os_Exit (result (main env) w)].
Proof.
  unfold main, result, after, bind.
  destruct (run env w) as [[e|] w1]; cbn [fst snd]; unfold calls;
    destruct w1 as [h1 hp1 v1 [f|] f1 c1]; cbn; rewrite <- ?app_assoc; reflexivity.
Qed.

Lemma main_frame env w :
  fs (after (main env) w) = fs (after (run env) w)
  /\ heap (after (main env) w) = heap (after (run env) w)
  /\ vars (after (main env) w) = vars (after (run env) w)
  /\ logFile (after (main env) w) = logFile (after (run env) w).
Proof.
  unfold main, result, after, bind.
  destruct (run env w) as [[e|] w1]; cbn [fst snd];
    destruct w1 as [h1 hp1 v1 [f|] f1 c1]; cbn; repeat split; reflexivity.
Qed.

(** ** The log file *)

Lemma configure_log_denied env w cfg errno :
  env_Read env = inr cfg ->
  rtcfg.Logging.FilePath (rtcfg.Logging cfg) <> "" ->
  fs w !! rtcfg.Logging.FilePath (rtcfg.Logging cfg) = Some (Denied errno) ->
  result (configure env) w
  = Some (wrapError "Opening log file failed: "
            (PathError "open" (rtcfg.Logging.FilePath (rtcfg.Logging cfg)) errno))
  /\ calls (after (configure env) w)
     = calls w ++
       [logging_SetLevel logging.ErrorLevel; store_Read None; store_RLock;
        logging_SetLevel (rtcfg.Logging.Level (rtcfg.Logging cfg));
        os_OpenFile (rtcfg.Logging.FilePath (rtcfg.Logging cfg)) logFlags logPerm
          (Some (PathError "open" (rtcfg.Logging.FilePath (rtcfg.Logging cfg)) errno));
        store_RUnlock]
  /\ fs (after (configure env) w) = fs w
  /\ logFile (after (configure env) w) = None
  /\ heap (after (configure env) w) = heap w.
Proof.
  intros Hread Hpath Hfile.
  destruct w as [past hp vs lf files sc]. cbn [fs] in Hfile.
  unfold configure, Store_Read, os_OpenFile_, OpenFile. rewrite Hread. step_world.
  destruct (decide _) as [_|N]; [|contradiction]. rewrite Hfile. step_world.
  rewrite <- !app_assoc. repeat split; reflexivity.
Qed.


(** X4: when the configuration loads and names a log file that cannot be
  opened, [configure] releases the read lock and returns the error of
  [os.OpenFile] wrapped with the text "Opening log file failed: ", and [run]
  returns it right away: the writer of the log is not switched, the
  start-up message is not logged, the certificates are not looked up,
  nothing is allocated or started, no file changes and, the deferred
  [store.Write] not being registered yet, the configuration is not written
  back.  [main] logs the error, has no log file to close, and exits with
  code 1. *)
Theorem log_file_failure_aborts env w cfg errno :
  env_Read env = inr cfg ->
  rtcfg.Logging.FilePath (rtcfg.Logging cfg) <> "" ->
  fs w !! rtcfg.Logging.FilePath (rtcfg.Logging cfg) = Some (Denied errno) ->
  let path := rtcfg.Logging.FilePath (rtcfg.Logging cfg) in
  let e := wrapError "Opening log file failed: " (PathError "open" path errno) in
  result (run env) w = Some e
  /\ result (main env) w = 1%Z
  /\ calls (after (main env) w)
     = calls w ++
       [logging_SetLevel logging.ErrorLevel; store_Read None; store_RLock;
        logging_SetLevel (rtcfg.Logging.Level (rtcfg.Logging cfg));
        os_OpenFile path logFlags logPerm (Some (PathError "open" path errno));
        store_RUnlock; log_Info [str "Shutting down"]; log_Error [err e];
        os_Exit 1]
  /\ fs (after (main env) w) = fs w
  /\ heap (after (main env) w) = heap w
  /\ logFile (after (main env) w) = None.
Proof.
  intros Hread Hpath Hfile. cbv zeta.
  destruct (configure_log_denied env w cfg errno Hread Hpath Hfile)
    as (R & C & F & L & Hh).
  pose proof (main_calls env w) as MC. pose proof (main_exit env w) as ME.
  destruct (main_frame env w) as (MF & MH & _ & ML).
  rewrite MF, MH, ML. rewrite MC, ME. clear MC ME MF MH ML.
  revert R. rewrite run_stages. intros R.
  destruct (stages_configure_failed (configure env) (message env) (certificates env)
              (serve env) (persist env) farewell w _ R) as [-> ->].
  revert C F L Hh. generalize (after (configure env) w). intros w1 C F L Hh.
  destruct w1 as [h1 hp1 v1 l1 f1 c1]. cbn in *. subst.
  rewrite <- !app_assoc. repeat split; reflexivity.
Qed.

Lemma log_file_failure_aborts_witness :
  result (main loggingEnv) (boot {[ "ccu-jack.log" := Denied EACCES ]}) = 1%Z
  /\ fs (after (main loggingEnv) (boot {[ "ccu-jack.log" := Denied EACCES ]}))
     = {[ "ccu-jack.log" := Denied EACCES ]}.
Proof.
  destruct (log_file_failure_aborts loggingEnv
              (boot {[ "ccu-jack.log" := Denied EACCES ]})
              (sampleConfig "ccu-jack.log" []) EACCES)
    as (_ & X & _ & F & _).
  - reflexivity.
  - discriminate.
  - vm_compute; reflexivity.
  - split; [exact X | exact F].
Defined.



(** ** The files the program touches *)

Section Untouched.

Variables (env : Env) (name : string).

Hypothesis not_config : name <> configFile.

Hypothesis not_log :
  forall cfg, env_Read env = inr cfg ->
    rtcfg.Logging.FilePath (rtcfg.Logging cfg) <> name.

Hypothesis not_generated :
  forall cfg now files,
    (env_Generate env (certGenerator cfg now) files).2 !! name = files !! name.

Lemma untouched_configure : preserves (fun w => fs w !! name) (configure env).
Proof.
  intros [past hp vs lf files sc].
  unfold configure, Store_Read, os_OpenFile_, OpenFile.
  destruct (env_Read env) as [e|cfg] eqn:Hread; step_world; [reflexivity|].
  destruct (decide _) as [_|_]; [|reflexivity].
  destruct (files !! _) as [[data|errno]|] eqn:Hfile; step_world; try reflexivity.
  apply lookup_insert_ne. by apply not_log.
Qed.

Lemma untouched_Store_Write : preserves (fun w => fs w !! name) (Store_Write env).
Proof.
  intros [past hp vs lf files sc]. unfold Store_Write. step_world.
  apply lookup_insert_ne. by apply not_eq_sym.
Qed.

Lemma untouched_Generate cfg now :
  preserves (fun w => fs w !! name) (Generate_ env (certGenerator cfg now)).
Proof.
  intros [past hp vs lf files sc]. unfold Generate_.
  pose proof (not_generated cfg now files) as H. step_world.
  destruct (env_Generate env _ files) as [res files']. exact H.
Qed.

Lemma untouched_main : preserves (fun w => fs w !! name) (main env).
Proof.
  unfold main, run, message, certificates, os_Stat_, time_Now_. unfold_serve.
  repeat lazymatch goal with
         | |- preserves _ (configure _) => apply untouched_configure
         | |- preserves _ (Store_Write _) => apply untouched_Store_Write
         | |- preserves _ (Generate_ _ _) => apply untouched_Generate
         | |- _ => preserves_step
         end.
Qed.

End Untouched.

(** X6: the program changes no file but its own.  A path that is neither
  the configuration file nor the configured log file, and that the
  certificate generator leaves alone, holds after [main] what it held
  before, in every execution: [os.OpenFile] of [configure], [Generate] of
  [certificates] and the deferred [store.Write] of [run] are the only
  writes. *)
Theorem other_files_untouched env w name :
  name <> configFile ->
  (forall cfg, env_Read env = inr cfg ->
     rtcfg.Logging.FilePath (rtcfg.Logging cfg) <> name) ->
  (forall cfg now files,
     (env_Generate env (certGenerator cfg now) files).2 !! name = files !! name) ->
  fs (after (main env) w) !! name = fs w !! name.
Proof. intros H1 H2 H3. by apply untouched_main. Qed.

Lemma other_files_untouched_witness :
  fs (after (main calmEnv) (boot {[ "notes.txt" := File "keep" ]})) !! "notes.txt"
  = Some (File "keep").
Proof.
  rewrite (other_files_untouched calmEnv (boot {[ "notes.txt" := File "keep" ]})
             "notes.txt").
  - vm_compute; reflexivity.
  - discriminate.
  - intros cfg [= <-]. discriminate.
  - intros cfg now files. unfold calmEnv, sampleEnv, writeChain. cbn.
    rewrite !lookup_insert_ne by discriminate. reflexivity.
Defined.

(** ** What the subsystems are started with *)

Example bare_device_collection_not_ready :
  ready (deviceCol, Some 1,
         [ORoot {| model.Identifier := "root"; model.Title := "Root";
                   model.Description := ""; model.ItemRole := "domain" |};
          ODeviceCol {| vmodel.DeviceCol.col := Some 0;
                        vmodel.DeviceCol.Interconnector := None;
                        vmodel.DeviceCol.ReGaDOM := None;
                        vmodel.DeviceCol.ModelService := None |}]) = false.
Proof. reflexivity. Qed.

Lemma preparing_silent cs :
  forallb preparing cs = true ->
  omap registered cs = [] /\ omap receives cs = [] /\ omap notified cs = [].
Proof.
  induction cs as [|c cs IH]; [done|].
  cbn [forallb]. intros [Hc Hcs]%andb_prop.
  destruct (IH Hcs) as (I1 & I2 & I3).
  destruct c; try discriminate Hc; cbn; rewrite ?I1, ?I2, ?I3; done.
Qed.

Lemma starting_started (cs : list Call) :
  fst <$> omap starting cs = omap started cs.
Proof.
  induction cs as [|c cs IH]; [done|].
  destruct c; cbn; rewrite ?IH; try exact IH; reflexivity.
Qed.

Lemma configure_Config env w cfg :
  env_Read env = inr cfg -> store_Config (after (configure env) w) = cfg.
Proof.
  intros Hread. destruct w as [past hp vs lf files sc].
  unfold configure, Store_Read, os_OpenFile_. rewrite Hread. step_world.
  destruct (decide _) as [_|_]; [|reflexivity].
  destruct (OpenFile files _) as [[e|] files']; reflexivity.
Qed.

(** [run] starts the subsystems with the configuration it loaded. *)
Lemma atServe_Config env files cfg :
  env_Read env = inr cfg -> store_Config (atServe env files) = cfg.
Proof.
  intros Hread. unfold atServe, atCertificates.
  destruct (certificates_frame env (after (message env)
              (after (configure env) (boot files)))) as (_ & _ & _ & ->).
  rewrite (preserves_Config_message env _).
  apply configure_Config, Hread.
Qed.

(** What a run that serves leaves, over what [serve] leaves from the world
  it starts in. *)
Lemma run_serving env files cfg :
  env_Read env = inr cfg ->
  result (configure env) (boot files) = None ->
  result (certificates env) (atCertificates env files) = None ->
  exists out,
    out = after (serve env)
            (blank (logFile (atServe env files)) (fs (atServe env files)) cfg)
    /\ calls (after (run env) (boot files))
       = calls (atServe env files) ++ calls out
         ++ [store_Write; store_Close; log_Info [str "Shutting down"]]
    /\ forallb preparing (calls (atServe env files)) = true
    /\ heap (after (run env) (boot files)) = heap out
    /\ vars (after (run env) (boot files)) = vars out.
Proof.
  intros Hread H1 H2.
  destruct (run_served_calls env files H1 H2) as (out & Hout & _ & C & Hh & Hv).
  rewrite (atServe_Config env files cfg Hread) in Hout.
  destruct (atServe_shape env files) as (P3 & _).
  exists out. split; [exact Hout|]. split; [exact C|]. split; [exact P3|].
  split; [exact Hh | exact Hv].
Qed.

Lemma serve_ready env log files cfg :
  forallb ready (omap starting (calls (after (serve env) (blank log files cfg))))
  = true
  /\ forallb (live (heap (after (serve env) (blank log files cfg))))
       (omap stopped (calls (after (serve env) (blank log files cfg)))) = true.
Proof.
  destruct env as [rd enc now gen ls ts wk].
  destruct wk as [v| |v []]; exec; split; reflexivity.
Qed.

(** X7: no subsystem is started half-built, and none is started or stopped
  through a nil pointer.  In a run that gets to [startupApp], at each of the
  seven starts the receiver points to an object of the subsystem's type, and
  every pointer field the program sets on it is set and points to an
  object of its type: the error channel of the HTTP server and of the
  broker, the model service of the broker, the root and the script client
  of the system-variable and program collections, the script client of the
  ReGaDOM explorer, the root, Interconnector, ReGaDOM explorer and model
  service of the device collection, and the receiver of the Interconnector.
  Each stop is made on an object of the subsystem's type. *)
Theorem subsystems_ready_when_started env files :
  result (configure env) (boot files) = None ->
  result (certificates env) (atCertificates env files) = None ->
  let w := after (run env) (boot files) in
  fst <$> omap starting (calls w) = startOrder
  /\ forallb ready (omap starting (calls w)) = true
  /\ forallb (live (heap w)) (omap stopped (calls w)) = true.
Proof.
  intros H1 H2. cbv zeta.
  rewrite starting_started, (run_started env files H1 H2).
  split; [reflexivity|].
  destruct (run_served_calls env files H1 H2) as (out & Hout & _ & C & Hh & _).
  destruct (atServe_shape env files) as (P3 & _).
  destruct (preparing_quiet _ P3) as (_ & Q2 & _ & Q4 & _).
  destruct (serve_ready env (logFile (atServe env files)) (fs (atServe env files))
              (store_Config (atServe env files))) as (R1 & R2).
  rewrite <- Hout in R1, R2. clear Hout.
  rewrite C, Hh, !omap_app3, Q2, Q4. clear C Hh Q2 Q4 P3.
  revert R1 R2. generalize (heap out) (calls out). clear. intros h cs R1 R2.
  cbn [omap starting stopped app]. rewrite !app_nil_r.
  split; [exact R1 | exact R2].
Qed.

Lemma subsystems_ready_when_started_witness :
  forallb ready (omap starting (calls (after (run calmEnv) (boot ∅)))) = true.
Proof.
  destruct (subsystems_ready_when_started calmEnv ∅) as (_ & R & _).
  - vm_compute; reflexivity.
  - vm_compute; reflexivity.
  - exact R.
Defined.

(** ** The handlers and the addresses *)




Lemma serve_addresses env log files cfg :
  let w := after (serve env) (blank log files cfg) in
  exists s b ws ic sc,
    heap w !! 2 = Some (OServer s) /\ heap w !! 13 = Some (OBroker b)
    /\ heap w !! 14 = Some (OWebsocketHandler ws)
    /\ heap w !! 16 = Some (OInterconnector ic)
    /\ heap w !! 9 = Some (OScriptClient sc)
    /\ httputil.Addr s = ":" +:+ Itoa (rtcfg.HTTP.Port (rtcfg.HTTP cfg))
    /\ httputil.AddrTLS s = ":" +:+ Itoa (rtcfg.HTTP.PortTLS (rtcfg.HTTP cfg))
    /\ itf.ServerURL ic
       = "http://" +:+ rtcfg.Host.Address (rtcfg.Host cfg) +:+ httputil.Addr s
    /\ itf.BinRPCURL ic
       = "xmlrpc_bin://" +:+ rtcfg.Host.Address (rtcfg.Host cfg) +:+ ":"
           +:+ Itoa (rtcfg.BINRPC.Port (rtcfg.BINRPC cfg))
    /\ service.Addr ws = ":" +:+ Itoa (rtcfg.MQTT.Port (rtcfg.MQTT cfg))
    /\ mqtt.Addr b = "tcp://" +:+ service.Addr ws
    /\ mqtt.AddrTLS b = "tcp://:" +:+ Itoa (rtcfg.MQTT.PortTLS (rtcfg.MQTT cfg))
    /\ (httputil.CertFile s, httputil.KeyFile s) = (serverCertFile, serverKeyFile)
    /\ (mqtt.CertFile b, mqtt.KeyFile b) = (serverCertFile, serverKeyFile)
    /\ script.Addr sc = rtcfg.CCU.Address (rtcfg.CCU cfg)
    /\ itf.CCUAddr ic = rtcfg.CCU.Address (rtcfg.CCU cfg)
    /\ itf.Types ic = rtcfg.CCU.Interfaces (rtcfg.CCU cfg)
    /\ itf.IDPrefix ic = rtcfg.CCU.InitID (rtcfg.CCU cfg) +:+ "-".
Proof.
  destruct env as [rd enc now gen ls ts wk].
  destruct wk as [v| |v []]; exec; do 5 eexists; repeat split; reflexivity.
Qed.

(** X9: the addresses the subsystems get agree with each other and with the
  loaded configuration.  In a run that gets to [startupApp]: the HTTP server
  listens on the configured plain and TLS ports; the callback URL the
  Interconnector gives to the CCU is the configured host address followed
  by the very address the HTTP server listens on; the BINRPC callback URL
  has the configured BINRPC port; the websocket proxy connects to the
  address the broker listens on; the HTTP server and the broker both use
  the server certificate and key that [certificates] looks up and
  generates; the script client and the Interconnector talk to the
  configured CCU address, with the configured interfaces and the
  configured init ID followed by "-". *)
Theorem addresses_follow_configuration env files cfg :
  env_Read env = inr cfg ->
  result (configure env) (boot files) = None ->
  result (certificates env) (atCertificates env files) = None ->
  let w := after (run env) (boot files) in
  exists s b ws ic sc,
    heap w !! 2 = Some (OServer s) /\ heap w !! 13 = Some (OBroker b)
    /\ heap w !! 14 = Some (OWebsocketHandler ws)
    /\ heap w !! 16 = Some (OInterconnector ic)
    /\ heap w !! 9 = Some (OScriptClient sc)
    /\ httputil.Addr s = ":" +:+ Itoa (rtcfg.HTTP.Port (rtcfg.HTTP cfg))
    /\ httputil.AddrTLS s = ":" +:+ Itoa (rtcfg.HTTP.PortTLS (rtcfg.HTTP cfg))
    /\ itf.ServerURL ic
       = "http://" +:+ rtcfg.Host.Address (rtcfg.Host cfg) +:+ httputil.Addr s
    /\ itf.BinRPCURL ic
       = "xmlrpc_bin://" +:+ rtcfg.Host.Address (rtcfg.Host cfg) +:+ ":"
           +:+ Itoa (rtcfg.BINRPC.Port (rtcfg.BINRPC cfg))
    /\ service.Addr ws = ":" +:+ Itoa (rtcfg.MQTT.Port (rtcfg.MQTT cfg))
    /\ mqtt.Addr b = "tcp://" +:+ service.Addr ws
    /\ mqtt.AddrTLS b = "tcp://:" +:+ Itoa (rtcfg.MQTT.PortTLS (rtcfg.MQTT cfg))
    /\ (httputil.CertFile s, httputil.KeyFile s) = (serverCertFile, serverKeyFile)
    /\ (mqtt.CertFile b, mqtt.KeyFile b) = (serverCertFile, serverKeyFile)
    /\ script.Addr sc = rtcfg.CCU.Address (rtcfg.CCU cfg)
    /\ itf.CCUAddr ic = rtcfg.CCU.Address (rtcfg.CCU cfg)
    /\ itf.Types ic = rtcfg.CCU.Interfaces (rtcfg.CCU cfg)
    /\ itf.IDPrefix ic = rtcfg.CCU.InitID (rtcfg.CCU cfg) +:+ "-".
Proof.
  intros Hread H1 H2. cbv zeta.
  destruct (run_serving env files cfg Hread H1 H2) as (out & Hout & _ & _ & Hh & _).
  pose proof (serve_addresses env (logFile (atServe env files))
                (fs (atServe env files)) cfg) as S.
  cbv zeta in S. rewrite <- Hout in S. rewrite Hh. exact S.
Qed.

Lemma addresses_follow_configuration_witness :
  exists s ic,
    heap (after (run calmEnv) (boot ∅)) !! 2 = Some (OServer s)
    /\ heap (after (run calmEnv) (boot ∅)) !! 16 = Some (OInterconnector ic)
    /\ httputil.Addr s = ":2121"
    /\ itf.ServerURL ic = "http://192.168.0.2:2121".
Proof.
  destruct (addresses_follow_configuration calmEnv ∅ (sampleConfig "" []))
    as (s & b & ws & ic & sc & E2 & _ & _ & E16 & _ & A & _ & U & _).
  - reflexivity.
  - vm_compute; reflexivity.
  - vm_compute; reflexivity.
  - exists s, ic. rewrite U, A. split; [exact E2|]. split; [exact E16|].
    split; vm_compute; reflexivity.
Defined.

(** ** The channels *)

Lemma serve_channels env log files cfg :
  let w := after (serve env) (blank log files cfg) in
  heap w !! 0 = Some (OChan 1) /\ heap w !! 1 = Some (OChan 0)
  /\ (exists post, calls w = signal_Notify (Some 0) [SIGINT; SIGTERM] :: post)
  /\ omap notified (calls w) = [(Some 0, [SIGINT; SIGTERM])]
  /\ omap receives (calls w) = [channel_of (taken (env_wakeup env))]
  /\ (exists s b,
        heap w !! 2 = Some (OServer s) /\ heap w !! 13 = Some (OBroker b)
        /\ httputil.ServeErr s = Some 1 /\ mqtt.ServeErr b = Some 1).
Proof.
  destruct env as [rd enc now gen ls ts wk].
  destruct wk as [v| |v []]; exec.
  all: split; [reflexivity|]; split; [reflexivity|].
  all: split; [eexists; reflexivity|].
  all: split; [reflexivity|]; split; [reflexivity|].
  all: do 2 eexists; repeat split; reflexivity.
Qed.

(** X10: in a run that gets to [startupBase], the termination signals are
  caught before anything listens.  The channel termSig has a buffer of one
  signal and the channel serveErr has none; SIGINT and SIGTERM are routed
  to termSig by the one call of [signal.Notify], before which only calls of
  the preparation are made: no handler is registered and no subsystem is
  started.  The HTTP server and the broker report their fatal errors on the
  one channel serveErr, and the final [select] receives from these two
  channels: from serveErr in its error case and from termSig in its signal
  case. *)
Theorem signals_caught_before_listeners env files :
  result (configure env) (boot files) = None ->
  result (certificates env) (atCertificates env files) = None ->
  let w := after (run env) (boot files) in
  heap w !! 0 = Some (OChan 1) /\ heap w !! 1 = Some (OChan 0)
  /\ (exists pre post,
        calls w = pre ++ signal_Notify (Some 0) [SIGINT; SIGTERM] :: post
        /\ forallb preparing pre = true /\ filter serves pre = [])
  /\ omap notified (calls w) = [(Some 0, [SIGINT; SIGTERM])]
  /\ omap receives (calls w) = [channel_of (taken (env_wakeup env))]
  /\ (exists s b,
        heap w !! 2 = Some (OServer s) /\ heap w !! 13 = Some (OBroker b)
        /\ httputil.ServeErr s = Some 1 /\ mqtt.ServeErr b = Some 1).
Proof.
  intros H1 H2. cbv zeta.
  destruct (run_served_calls env files H1 H2) as (out & Hout & _ & C & Hh & _).
  destruct (atServe_shape env files) as (P & _).
  destruct (preparing_silent _ P) as (_ & Q2 & Q3).
  destruct (preparing_quiet _ P) as (_ & _ & _ & _ & Q5 & _).
  pose proof (serve_channels env (logFile (atServe env files)) (fs (atServe env files))
                (store_Config (atServe env files))) as S.
  cbv zeta in S. rewrite <- Hout in S. clear Hout.
  rewrite C, Hh, !omap_app3, Q2, Q3. clear C Hh Q2 Q3.
  revert P Q5. generalize (calls (atServe env files)). intros pre P Q5.
  revert S. generalize (heap out) (calls out). clear -P Q5.
  intros h cs (A0 & A1 & (post & E) & N & R & SB).
  cbn [omap notified receives app]. rewrite !app_nil_r, N, R.
  split; [exact A0|]. split; [exact A1|]. split.
  { exists pre, (post ++ [store_Write; store_Close; log_Info [str "Shutting down"]]).
    rewrite E. split; [reflexivity|]. split; [exact P | exact Q5]. }
  split; [reflexivity|]. split; [reflexivity | exact SB].
Qed.

Lemma signals_caught_before_listeners_witness :
  omap notified (calls (after (run racingEnv) (boot ∅)))
  = [(Some 0, [SIGINT; SIGTERM])]
  /\ omap receives (calls (after (run racingEnv) (boot ∅))) = [Some 1].
Proof.
  destruct (signals_caught_before_listeners racingEnv ∅) as (_ & _ & _ & N & R & _).
  - vm_compute; reflexivity.
  - vm_compute; reflexivity.
  - split; [exact N | exact R].
Defined.

(** ** newRoot *)

Lemma alter_fresh (f : Obj -> Obj) (h : Heap) o :
  alter f (length h) (h ++ [o]) = h ++ [f o].
Proof.
  induction h as [|x h IH]; [reflexivity|]. cbn. f_equal. exact IH.
Qed.

(** X11: [newRoot] builds a fresh root and touches nothing else.  In every
  world it returns a pointer to a new object, the root domain with
  identifier "root", title "Root", its description and the role "domain":
  the four assignments through the pointer all land on the new object.  The
  objects allocated before are as they were, and no variable and no file
  changes.  The vendor domain is created in that very root (its collection
  is the pointer returned), under the application's names, and the
  configuration domain and the handler statistics (for the statistics
  passed in) are attached to the vendor domain. *)
Theorem newRoot_fresh handlerStats w :
  let r := length (heap w) in
  let vendorCfg := {|
    model.ServerName := appDisplayName;
    model.ServerVersion := appVersion;
    model.ServerDescription := appDescription;
    model.VendorName := appVendor;
    model.Collection := Some r |} in
  result (newRoot handlerStats) w = Some r
  /\ heap (after (newRoot handlerStats) w)
     = heap w ++
       [ORoot {| model.Identifier := "root"; model.Title := "Root";
                 model.Description := "Root of the CCU-Jack VEAP server";
                 model.ItemRole := "domain" |};
        OVendor vendorCfg]
  /\ calls (after (newRoot handlerStats) w)
     = calls w ++
       [model_NewVendor vendorCfg; vmodel_NewConfig (Some (S r)) AddrOfStore;
        model_NewHandlerStats (Some (S r)) handlerStats]
  /\ vars (after (newRoot handlerStats) w) = vars w
  /\ fs (after (newRoot handlerStats) w) = fs w.
Proof.
  destruct w as [past hp vs lf files sc]. unfold newRoot. step_world.
  rewrite !alter_fresh.
  cbn [on_Root model.Identifier model.Title model.Description model.ItemRole].
  rewrite <- !app_assoc, length_app, Nat.add_1_r. repeat split; reflexivity.
Qed.

(** ** Failure of the certificate generator *)

(** X12: [certificates] fails exactly when it calls Generate and Generate
  fails, and then returns the error of Generate unchanged: this happens
  only when a lookup of the server pair reported a missing file.  In that
  case the read lock is released by the last call, the line "Created
  certificate files" is not logged, and the file system is as Generate left
  it. *)
Theorem certificates_fails_with_Generate env w e :
  let g := certGenerator (store_Config w) (env_Now env) in
  (result (certificates env) w = Some e <->
   IsNotExist (Stat (fs w) serverCertFile)
     || IsNotExist (Stat (fs w) serverKeyFile) = true
   /\ (env_Generate env g (fs w)).1 = Some e)
  /\ (result (certificates env) w = Some e ->
      calls (after (certificates env) w)
      = calls w ++
        [os_Stat serverCertFile (Stat (fs w) serverCertFile);
         os_Stat serverKeyFile (Stat (fs w) serverKeyFile);
         store_RLock; log_Info [str "Generating certificates"];
         time_Now (env_Now env); CertGenerator_Generate g (Some e);
         store_RUnlock]
      /\ fs (after (certificates env) w) = (env_Generate env g (fs w)).2).
Proof.
  cbv zeta. unfold result, after.
  destruct (IsNotExist (Stat (fs w) serverCertFile)
            || IsNotExist (Stat (fs w) serverKeyFile)) eqn:H.
  - rewrite (certificates_generates env w H). cbn [fst snd].
    split; [split; [intros E; split; [reflexivity | exact E] | intros [_ E]; exact E]|].
    intros E. rewrite E. rewrite !calls_logged, calls_set_fs, calls_logged.
    rewrite <- app_assoc. split; reflexivity.
  - apply orb_false_elim in H as [Hc Hk].
    rewrite (certificates_kept env w Hc Hk). cbn [fst snd].
    split; [split; [intros [=] | intros [[=] _]] | intros [=]].
Qed.
